(** * Score to Avassa converter: a shallow embedding of
      [internal/convert/convert.go] and [internal/command/generate.go].

    Go strings are modelled as the sequence of runes (Unicode code points)
    that [for _, r := range s] and the [strings] package observe of a
    well-formed UTF-8 text; Go maps are [gmap]s, and the order in which a
    [range] loop walks a map is an explicit oracle. *)

From Stdlib Require Import ZArith String Ascii DecimalString.
From stdpp Require Import gmap list sorting.

Set Warnings "-register-all,-clear-no-such-hyp".

(** ** Go strings and the functions of [strings], [strconv] and [sort] *)

Abbreviation rune := N (only parsing).
Abbreviation gostring := (list N) (only parsing).

(** An ASCII literal of the Go source as a rune sequence. *)
Definition str (s : string) : gostring :=
  (λ a, N_of_ascii a) <$> list_ascii_of_string s.
Arguments str _%_string : simpl never.

(** The Unicode case table outside ASCII ([unicode.ToLower]), which the
    Go standard library holds as data. *)
Class Unicode := { unicode_lower : rune → rune }.

Module strings.

(** [unicode.IsSpace]. *)
Definition IsSpace (r : rune) : bool :=
  ((9 <=? r) && (r <=? 13) || (r =? 32) || (r =? 133) || (r =? 160)
   || (r =? 5760) || (8192 <=? r) && (r <=? 8202) || (r =? 8232)
   || (r =? 8233) || (r =? 8239) || (r =? 8287) || (r =? 12288))%N.

(** [strings.TrimLeftFunc], [TrimRightFunc] and [TrimFunc]. *)
Fixpoint TrimLeftFunc (f : rune → bool) (s : gostring) : gostring :=
  match s with
  | r :: s' => if f r then TrimLeftFunc f s' else s
  | [] => []
  end.

Definition TrimRightFunc (f : rune → bool) (s : gostring) : gostring :=
  reverse (TrimLeftFunc f (reverse s)).

Definition TrimFunc (f : rune → bool) (s : gostring) : gostring :=
  TrimRightFunc f (TrimLeftFunc f s).

Definition TrimSpace (s : gostring) : gostring := TrimFunc IsSpace s.

(** [strings.Trim(s, cutset)]. *)
Definition Trim (s cutset : gostring) : gostring :=
  TrimFunc (λ r, bool_decide (r ∈ cutset)) s.

(** [strings.TrimRight(s, cutset)]. *)
Definition TrimRight (s cutset : gostring) : gostring :=
  TrimRightFunc (λ r, bool_decide (r ∈ cutset)) s.

Definition ToLowerRune {U : Unicode} (r : rune) : rune :=
  if (r <? 128)%N
  then (if (65 <=? r)%N && (r <=? 90)%N then r + 32 else r)%N
  else unicode_lower r.

Definition ToLower {U : Unicode} (s : gostring) : gostring := ToLowerRune <$> s.

(** [strings.FieldsFunc]: the maximal runs of runes that do not satisfy
    [f]; [cur] is the field being read, in reverse. *)
Fixpoint FieldsFunc_go (f : rune → bool) (cur : gostring) (s : gostring)
  : list gostring :=
  match s with
  | [] => if cur is [] then [] else [reverse cur]
  | r :: s' =>
      if f r
      then (if cur is [] then FieldsFunc_go f [] s'
            else reverse cur :: FieldsFunc_go f [] s')
      else FieldsFunc_go f (r :: cur) s'
  end.

Definition FieldsFunc (s : gostring) (f : rune → bool) : list gostring :=
  FieldsFunc_go f [] s.

Fixpoint Join (elems : list gostring) (sep : gostring) : gostring :=
  match elems with
  | [] => []
  | [e] => e
  | e :: es => e ++ sep ++ Join es sep
  end.

(** [strings.SplitN(s, sep, 2)] for a separator of one rune: the text
    before the first separator and the text after it, or [s] alone. *)
Fixpoint SplitN2 (s : gostring) (sep : rune) : list gostring :=
  match s with
  | [] => [[]]
  | r :: s' =>
      if (r =? sep)%N then [[]; s']
      else match SplitN2 s' sep with
           | p :: ps => (r :: p) :: ps
           | [] => [[r]]
           end
  end.

End strings.

Module strconv.

Definition digit (r : rune) : option Z :=
  if (48 <=? r)%N && (r <=? 57)%N then Some (Z.of_N r - 48)%Z else None.

Fixpoint digits (acc : Z) (s : gostring) : option Z :=
  match s with
  | [] => Some acc
  | r :: s' => d ← digit r; digits (10 * acc + d)%Z s'
  end.

Definition in_int64 (z : Z) : bool :=
  ((- 2 ^ 63 <=? z) && (z <=? 2 ^ 63 - 1))%Z.

(** [strconv.Atoi] on a 64-bit platform: an optional sign, then one or
    more decimal digits, the value within [int]; [None] is its error. *)
Definition Atoi (s : gostring) : option Z :=
  let '(neg, body) :=
    match s with
    | 43%N :: s' => (false, s')
    | 45%N :: s' => (true, s')
    | _ => (false, s)
    end in
  match body with
  | [] => None
  | _ => n ← digits 0 body;
         let z := if neg then (- n)%Z else n in
         if in_int64 z then Some z else None
  end.

(** [strconv.Itoa] and [strconv.FormatInt(_, 10)]. *)
Definition Itoa (z : Z) : gostring :=
  str (NilZero.string_of_int (Z.to_int z)).

End strconv.

Module sort.

(** The order of Go's [<] on strings: lexicographic, and on well-formed
    UTF-8 the same by bytes as by runes. *)
Fixpoint str_leb (a b : gostring) : bool :=
  match a, b with
  | [], _ => true
  | _ :: _, [] => false
  | x :: a', y :: b' => (x <? y)%N || ((x =? y)%N && str_leb a' b')
  end.

Definition str_le (a b : gostring) : Prop := str_leb a b = true.

Global Instance str_le_dec a b : Decision (str_le a b).
Proof. unfold str_le. apply _. Defined.

(** [sort.Strings] and [slices.Sort] on strings. *)
Definition Strings (l : list gostring) : list gostring :=
  merge_sort str_le l.

End sort.

(** ** Errors

    An [error] is modelled by its message, [fmt.Errorf] by the text it
    formats; [%w] and [%s] both splice the message in. *)

Abbreviation error := (list N) (only parsing).

Inductive result (A : Type) : Type :=
| Ok (a : A)
| Err (e : error).
Arguments Ok {A} a.
Arguments Err {A} e.

Definition rbind {A B} (r : result A) (k : A → result B) : result B :=
  match r with
  | Ok a => k a
  | Err e => Err e
  end.

Definition is_Err {A} (r : result A) : bool :=
  match r with Ok _ => false | Err _ => true end.

(** [wrap pre r]: [return fmt.Errorf(pre + "%w", err)] on the error path. *)
Definition wrap {A} (pre : gostring) (r : result A) : result A :=
  match r with
  | Ok a => Ok a
  | Err e => Err (pre ++ e)
  end.

Global Instance result_bind : MBind result := λ A B k r, rbind r k.
Global Instance result_ret : MRet result := @Ok.
Global Instance result_fmap : FMap result :=
  λ A B f r, match r with Ok a => Ok (f a) | Err e => Err e end.

(** ** Dynamic values ([interface{}]) and YAML nodes *)

Inductive Kind := DocumentNode | SequenceNode | MappingNode | ScalarNode | AliasNode.

(** [yaml.Node], with the fields the encoder of this program sets. *)
Inductive Node := mkNode (kind : Kind) (tag : gostring) (val : gostring) (content : list Node).

Definition n_Kind (n : Node) : Kind := let 'mkNode k _ _ _ := n in k.
Definition n_Value (n : Node) : gostring := let 'mkNode _ _ v _ := n in v.
Definition n_Content (n : Node) : list Node := let 'mkNode _ _ _ c := n in c.

(** A [float64] is carried as what the program observes of it: the
    conversion [int64(t)], the test [t == float64(int64(t))], and its two
    formattings, [strconv.FormatFloat(t, 'f', -1, 64)] and
    [fmt.Sprintf("%f", t)]. *)
Record float64 := {
  f64_int64 : Z;
  f64_whole : bool;
  f64_FormatFloat : gostring;
  f64_Sprintf_f : gostring }.

(** The dynamic types a decoded document holds. [VOther] is a value of
    any further dynamic type: [stringer] is its [String()] when it
    implements [fmt.Stringer], [enc] the node that the encoder's fallback
    (marshal, then unmarshal into a node) yields for it. *)
Inductive value :=
| VNil
| VString (s : gostring)
| VBool (b : bool)
| VInt (z : Z)
| VInt64 (z : Z)
| VFloat64 (f : float64)
| VSlice (l : list value)
| VMap (m : gmap gostring value)
| VOther (stringer : option gostring) (enc : Node).

(** [v.(map[string]interface{})], the comma-ok type assertion. *)
Definition as_map (v : option value) : option (gmap gostring value) :=
  match v with
  | Some (VMap m) => Some m
  | _ => None
  end.

(** ** The types of [score-go/types] that the converter reads *)

Module scoretypes.

Record ContainerFile := {
  cf_Content : option gostring;
  cf_Source : option gostring;
  cf_NoExpand : option bool;
  cf_Mode : option gostring }.

Record HttpProbeHttpHeadersElem := { hh_Name : gostring; hh_Value : gostring }.

Record HttpProbe := {
  hp_Host : option gostring;
  hp_HttpHeaders : list HttpProbeHttpHeadersElem;
  hp_Path : gostring;
  hp_Port : Z;
  hp_Scheme : option gostring }.

Record ExecProbe := { ep_Command : list gostring }.

Record ContainerProbe := {
  cp_Exec : option ExecProbe;
  cp_HttpGet : option HttpProbe }.

Record Container := {
  c_Image : gostring;
  c_Command : list gostring;
  c_Args : list gostring;
  c_Variables : gmap gostring gostring;
  c_Files : gmap gostring ContainerFile;
  c_LivenessProbe : option ContainerProbe;
  c_ReadinessProbe : option ContainerProbe }.

Record Workload := {
  w_Metadata : gmap gostring value;
  w_Containers : gmap gostring Container }.

End scoretypes.
Import scoretypes.

(** ** Collaborators outside this repository's sources *)

(** The order in which [for k, v := range m] walks a Go map. *)
Class MapRange := { range : ∀ {V : Type}, gmap gostring V → list (gostring * V) }.
Global Arguments range {_ _} _.

(** A [range] oracle is sound when it yields every entry exactly once. *)
Definition range_ok (R : MapRange) : Prop :=
  ∀ (V : Type) (m : gmap gostring V), range m ≡ₚ map_to_list m.

(** [score-go/framework]: the substitution engine and the state's
    resource side. A substitution function is
    [func(string) (string, error)]. *)
Class Framework := {
  OutputLookups : Type;
  ResourceStates : Type;
  BuildSubstitutionFunction :
    gmap gostring value → OutputLookups → (gostring → result gostring);
  SubstituteString : gostring → (gostring → result gostring) → result gostring }.

(** What [os.ReadFile], [os.WriteFile] and [os.Rename] return, and the
    three functions of [path/filepath]. *)
Class FileSystem := {
  os_ReadFile : gostring → result gostring;
  os_WriteFile : gostring → gostring → result unit;
  os_Rename : gostring → gostring → result unit;
  filepath_IsAbs : gostring → bool;
  filepath_Dir : gostring → gostring;
  filepath_Join : gostring → gostring → gostring }.

(** [gopkg.in/yaml.v3]: what a value of type [any] becomes when it is
    marshalled and decoded again, the text of a node, and the decoder. *)
Class YAML := {
  yaml_roundtrip : value → value;
  yaml_Encode : Node → gostring;
  yaml_Unmarshal : gostring → result value;
  yaml_Unmarshal_map : gostring → result (gmap gostring value) }.

(** [dario.cat/mergo] and the override helpers of [score-go/framework].
    [mergo_Merge dst src] is the document that [dst] has become once the
    merge, which works in place, has returned. *)
Class Overrides := {
  mergo_Merge : gmap gostring value → gmap gostring value → result (gmap gostring value);
  ParseDotPathParts : gostring → list gostring;
  OverridePathInMap :
    gmap gostring value → list gostring → bool → value → result (gmap gostring value) }.

(** [score-go/schema] and [score-go/loader]. *)
Class Schema := {
  ApplyCommonUpgradeTransforms :
    gmap gostring value → result (gmap gostring value * list gostring);
  Validate : gmap gostring value → result unit;
  MapSpec : gmap gostring value → result Workload }.

(** ** [internal/state]: the project state *)

Module state.

Record ScoreWorkloadState := {
  Spec : Workload;
  File : option gostring }.

Record State {F : Framework} := {
  Workloads : gmap gostring ScoreWorkloadState;
  Resources : ResourceStates }.

(** The zero value that indexing [Workloads] with an absent name yields. *)
Definition zeroWorkloadState : ScoreWorkloadState :=
  {| Spec := {| w_Metadata := ∅; w_Containers := ∅ |}; File := None |}.

End state.
Import state.

(** The methods of the state that live outside the sources at hand. *)
Class StateAPI {F : Framework} := {
  LoadStateDirectory : result (option State);
  Persist : State → result unit;
  GetResourceOutputForWorkload : State → gostring → result OutputLookups;
  WithWorkload : State → Workload → gostring → result State;
  WithPrimedResources : State → result State }.

(** [internal/provisioners]. *)
Class Provisioners {F : Framework} := {
  ProvisionResources : State → result State }.

(** ** [internal/convert] *)

Module convert.

Record avassaNetwork := { SharedApplicationNetwork : gostring }.

Record avassaOnMountedFileChange := { Restart : bool }.

Record avassaHTTPProbe := {
  http_Scheme : gostring;
  http_Host : gostring;
  http_Path : gostring;
  http_Port : Z;
  http_RequestHeaders : gmap gostring gostring }.

Record avassaTCPProbe := { tcp_Port : Z }.

Record avassaExecProbe := { exec_Cmd : list gostring }.

Record avassaProbeSpec := {
  ps_HTTP : option avassaHTTPProbe;
  ps_TCP : option avassaTCPProbe;
  ps_Exec : option avassaExecProbe;
  ps_InitialDelay : gostring;
  ps_Timeout : gostring;
  ps_Period : gostring;
  ps_SuccessThreshold : Z;
  ps_FailureThreshold : Z }.

Record avassaProbes := {
  Liveness : option avassaProbeSpec;
  Readiness : option avassaProbeSpec }.

(** A nil map or slice and an empty one are the same [gmap] or list: the
    program tells them apart nowhere, and [omitempty] drops both. *)
Record avassaContainer := {
  ac_Name : gostring;
  ac_Mounts : list value;
  ac_ContainerLogSize : gostring;
  ac_ContainerLogArchive : bool;
  ac_ShutdownTimeout : gostring;
  ac_Image : gostring;
  ac_Cmd : list gostring;
  ac_Env : gmap gostring gostring;
  ac_Approle : gostring;
  ac_OnMountedFileChange : option avassaOnMountedFileChange;
  ac_Probes : option avassaProbes }.

Record avassaService := {
  svc_Name : gostring;
  svc_Mode : gostring;
  svc_Replicas : Z;
  svc_SharePidNamespace : bool;
  svc_Containers : list avassaContainer }.

Record avassaApplication := {
  app_Name : gostring;
  app_Version : gostring;
  app_Services : list avassaService;
  app_OnMutableVariableChange : gostring;
  app_Labels : gmap gostring value;
  app_Network : option avassaNetwork }.

(** *** The accessors of annotation values *)

Definition asString (v : option value) : gostring :=
  match v with
  | Some (VString t) => t
  | Some (VOther (Some s) _) => s
  | Some (VInt t) => strconv.Itoa t
  | Some (VInt64 t) => strconv.Itoa t
  | Some (VFloat64 t) =>
      if f64_whole t then strconv.Itoa (f64_int64 t) else f64_FormatFloat t
  | Some (VBool t) => if t then str "true" else str "false"
  | _ => []
  end.

Definition asInt (v : option value) (def : Z) : Z :=
  match v with
  | Some (VInt t) => t
  | Some (VInt64 t) => t
  | Some (VFloat64 t) => f64_int64 t
  | Some (VString t) =>
      match strconv.Atoi (strings.TrimSpace t) with
      | Some i => i
      | None => def
      end
  | _ => def
  end.

Definition asBool (v : option value) (def : bool) : bool :=
  match v with
  | Some (VBool t) => t
  | Some (VString t) =>
      if decide (t = str "true") then true
      else if decide (t = str "false") then false
      else def
  | _ => def
  end.

Fixpoint firstNonEmpty (values : list gostring) : gostring :=
  match values with
  | [] => []
  | v :: rest => if strings.TrimSpace v is [] then firstNonEmpty rest else v
  end.

(** *** Name sanitisation *)

Definition is_lower_alnum (r : rune) : bool :=
  ((97 <=? r) && (r <=? 122) || (48 <=? r) && (r <=? 57))%N.

Definition is_dash (r : rune) : bool := (r =? 45)%N.

(** [validNameRe.MatchString], for the expression
    [^[a-z0-9]([a-z0-9\-]*[a-z0-9])?$]. *)
Definition validNameRe_MatchString (s : gostring) : bool :=
  match s with
  | [] => false
  | [r] => is_lower_alnum r
  | r :: rest =>
      is_lower_alnum r
      && forallb (λ x, is_lower_alnum x || is_dash x) (removelast rest)
      && (if last rest is Some z then is_lower_alnum z else false)
  end.

(** The loop of [sanitizeName] over the runes of its input. *)
Definition replace_invalid (r : rune) : rune :=
  if is_lower_alnum r || is_dash r then r else 45%N.

Definition sanitizeName {U : Unicode} (input : gostring) : gostring :=
  let input := strings.TrimSpace (strings.ToLower input) in
  if input is [] then input
  else
    let out := replace_invalid <$> input in
    let s := strings.Trim out (str "-") in
    if s is [] then str "app"
    else if negb (validNameRe_MatchString s)
    then
      let s := strings.Trim
                 (strings.Join (strings.FieldsFunc s is_dash) (str "-"))
                 (str "-") in
      if s is [] then str "app" else s
    else s.

(** *** Variables and files *)

Section with_collaborators.
Context {U : Unicode} {R : MapRange} {F : Framework} {FS : FileSystem}.

(** The body of the loop of [convertContainerVariables] for one entry. *)
Definition convertContainerVariable (key value : gostring)
    (sf : gostring → result gostring) : result gostring :=
  match SubstituteString value sf with
  | Err e => Err (key ++ str ": " ++ e)
  | Ok out => Ok out
  end.

Fixpoint convertContainerVariables_loop (entries : list (gostring * gostring))
    (sf : gostring → result gostring) (outMap : gmap gostring gostring)
  : result (gmap gostring gostring) :=
  match entries with
  | [] => Ok outMap
  | (key, value) :: rest =>
      out ← convertContainerVariable key value sf;
      convertContainerVariables_loop rest sf (<[key := out]> outMap)
  end.

Definition convertContainerVariables (input : gmap gostring gostring)
    (sf : gostring → result gostring) : result (gmap gostring gostring) :=
  convertContainerVariables_loop (range input) sf ∅.

(** The path that a file's [source] is read from: relative to the
    directory of the score file when it is not absolute. *)
Definition sourcePath (scoreFile : option gostring) (src : gostring) : gostring :=
  match scoreFile with
  | Some f => if filepath_IsAbs src then src else filepath_Join (filepath_Dir f) src
  | None => src
  end.

(** The body of the loop of [convertContainerFiles] for one entry. *)
Definition convertContainerFile (target : gostring) (file : ContainerFile)
    (scoreFile : option gostring) (sf : gostring → result gostring)
  : result ContainerFile :=
  content ←
    match cf_Content file, cf_Source file with
    | Some c, _ => Ok c
    | None, Some src =>
        let sourcePath := sourcePath scoreFile src in
        match os_ReadFile sourcePath with
        | Err e => Err (target ++ str ": source: failed to read file '"
                          ++ sourcePath ++ str "': " ++ e)
        | Ok rawContent => Ok rawContent
        end
    | None, None => Err (target ++ str ": missing 'content' or 'source'")
    end;
  content ←
    match cf_NoExpand file with
    | Some true => Ok content
    | _ => match SubstituteString content sf with
           | Err e => Err (target ++ str ": failed to substitute in content: " ++ e)
           | Ok c => Ok c
           end
    end;
  Ok {| cf_Content := Some content; cf_Source := None;
        cf_NoExpand := Some true; cf_Mode := cf_Mode file |}.

Fixpoint convertContainerFiles_loop (entries : list (gostring * ContainerFile))
    (scoreFile : option gostring) (sf : gostring → result gostring)
    (output : gmap gostring ContainerFile) : result (gmap gostring ContainerFile) :=
  match entries with
  | [] => Ok output
  | (target, file) :: rest =>
      file' ← convertContainerFile target file scoreFile sf;
      convertContainerFiles_loop rest scoreFile sf (<[target := file']> output)
  end.

Definition convertContainerFiles (input : gmap gostring ContainerFile)
    (scoreFile : option gostring) (sf : gostring → result gostring)
  : result (gmap gostring ContainerFile) :=
  convertContainerFiles_loop (range input) scoreFile sf ∅.

(** *** Probes *)

Fixpoint mapHeaders (hs : list HttpProbeHttpHeadersElem)
    (headers : gmap gostring gostring) : gmap gostring gostring :=
  match hs with
  | [] => headers
  | h :: rest =>
      let name := strings.TrimSpace (hh_Name h) in
      let val := strings.TrimSpace (hh_Value h) in
      if name is [] then mapHeaders rest headers
      else match headers !! name with
           | Some (_ :: _ as prev) =>
               mapHeaders rest (<[name := prev ++ str ", " ++ val]> headers)
           | _ => mapHeaders rest (<[name := val]> headers)
           end
  end.

Definition emptyProbeSpec : avassaProbeSpec :=
  {| ps_HTTP := None; ps_TCP := None; ps_Exec := None; ps_InitialDelay := [];
     ps_Timeout := []; ps_Period := []; ps_SuccessThreshold := 0;
     ps_FailureThreshold := 0 |}.

Definition mapScoreProbeToAvassa (p : option ContainerProbe) : option avassaProbeSpec :=
  match p with
  | None => None
  | Some p =>
      match cp_Exec p, cp_HttpGet p with
      | Some {| ep_Command := (_ :: _) as command |}, _ =>
          Some {| ps_HTTP := None; ps_TCP := None;
                  ps_Exec := Some {| exec_Cmd := [] ++ command |};
                  ps_InitialDelay := []; ps_Timeout := []; ps_Period := [];
                  ps_SuccessThreshold := 0; ps_FailureThreshold := 0 |}
      | _, Some h =>
          let http :=
            {| http_Path := hp_Path h; http_Port := hp_Port h;
               http_Scheme := if hp_Scheme h is Some s then strings.ToLower s else [];
               http_Host := if hp_Host h is Some x then x else [];
               http_RequestHeaders :=
                 if hp_HttpHeaders h is [] then ∅
                 else mapHeaders (hp_HttpHeaders h) ∅ |} in
          Some {| ps_HTTP := Some http; ps_TCP := None; ps_Exec := None;
                  ps_InitialDelay := []; ps_Timeout := []; ps_Period := [];
                  ps_SuccessThreshold := 0; ps_FailureThreshold := 0 |}
      | _, None => None
      end
  end.

(** *** The application *)

(** The loop over [combined] that fills [cmdOut]. *)
Fixpoint buildCmd (workloadName cname : gostring)
    (sf : option (gostring → result gostring))
    (combined : list gostring) (cmdOut : list gostring) : result (list gostring) :=
  match combined with
  | [] => Ok cmdOut
  | part :: rest =>
      let p := strings.TrimSpace part in
      if p is [] then buildCmd workloadName cname sf rest cmdOut
      else
        match (match sf with
               | Some f => SubstituteString p f
               | None => Ok p
               end) with
        | Err e =>
            Err (str "workload: " ++ workloadName ++ str ": container: "
                   ++ cname ++ str ": cmd: " ++ e)
        | Ok p =>
            let t := strings.TrimSpace p in
            if t is [] then buildCmd workloadName cname sf rest cmdOut
            else buildCmd workloadName cname sf rest (cmdOut ++ [t])
        end
  end.

(** The zero [Container] that indexing the map with an absent name yields. *)
Definition zeroContainer : Container :=
  {| c_Image := []; c_Command := []; c_Args := []; c_Variables := ∅;
     c_Files := ∅; c_LivenessProbe := None; c_ReadinessProbe := None |}.

(** The body of the loop over the sorted container names. *)
Definition buildContainer (annotations : gmap gostring value)
    (workloadName cname : gostring) (c : Container)
    (sf : option (gostring → result gostring)) : result avassaContainer :=
  let env := c_Variables c in
  let onMnt :=
    if asBool (annotations !! str "avassa.on-mounted-file-change-restart") false
    then Some {| Restart := true |} else None in
  cmd ←
    (if (0 <? length (c_Command c) + length (c_Args c))%nat
     then buildCmd workloadName cname sf (c_Command c ++ c_Args c) []
     else Ok []);
  let probes :=
    {| Liveness := mapScoreProbeToAvassa (c_LivenessProbe c);
       Readiness := mapScoreProbeToAvassa (c_ReadinessProbe c) |} in
  Ok {| ac_Name := cname;
        ac_Mounts := [];
        ac_ContainerLogSize :=
          firstNonEmpty [asString (annotations !! str "avassa.log-size"); str "100 MB"];
        ac_ContainerLogArchive := asBool (annotations !! str "avassa.log-archive") false;
        ac_ShutdownTimeout :=
          firstNonEmpty [asString (annotations !! str "avassa.shutdown-timeout"); str "10s"];
        ac_Image := c_Image c;
        ac_Cmd := cmd;
        ac_Env := env;
        ac_Approle := asString (annotations !! str "avassa.approle");
        ac_OnMountedFileChange := onMnt;
        ac_Probes :=
          if Liveness probes is None
          then (if Readiness probes is None then None else Some probes)
          else Some probes |}.

Fixpoint buildContainers (annotations : gmap gostring value)
    (workloadName : gostring) (containers : gmap gostring Container)
    (sf : option (gostring → result gostring)) (names : list gostring)
    (acc : list avassaContainer) : result (list avassaContainer) :=
  match names with
  | [] => Ok acc
  | cname :: rest =>
      let c := default zeroContainer (containers !! cname) in
      ac ← buildContainer annotations workloadName cname c sf;
      buildContainers annotations workloadName containers sf rest (acc ++ [ac])
  end.

(** The annotations of the workload: [metadata["annotations"]] when it is
    a map, and an empty map otherwise. *)
Definition annotationsOf (metadata : gmap gostring value) : gmap gostring value :=
  if as_map (metadata !! str "annotations") is Some rawAnn then rawAnn else ∅.

Definition buildAvassaApplication (metadata : gmap gostring value)
    (workloadName : gostring) (containers : gmap gostring Container)
    (sf : option (gostring → result gostring)) : result avassaApplication :=
  let appName := sanitizeName (asString (metadata !! str "name")) in
  let appName := if appName is [] then sanitizeName workloadName else appName in
  let annotations := annotationsOf metadata in
  let version := strings.TrimSpace (asString (annotations !! str "avassa.io/version")) in
  let names := sort.Strings ((range containers).*1) in
  acs ← buildContainers annotations workloadName containers sf names [];
  Ok {| app_Name := appName;
        app_Version := version;
        app_Services :=
          [ {| svc_Name := appName ++ str "-service";
               svc_Mode := str "replicated";
               svc_Replicas := asInt (annotations !! str "avassa.replicas") 1;
               svc_SharePidNamespace :=
                 asBool (annotations !! str "avassa.share-pid-namespace") false;
               svc_Containers := acs |} ];
        app_OnMutableVariableChange :=
          (let v := asString (annotations !! str "avassa.on-mutable-variable-change") in
           if v is [] then str "restart-service-instance" else v);
        app_Labels :=
          (if as_map (metadata !! str "labels") is Some labels then labels else ∅);
        app_Network :=
          (let v := asString (annotations !! str "avassa.network") in
           if v is [] then None else Some {| SharedApplicationNetwork := v |}) |}.

(** *** The manifest document

    [yaml.Marshal(app)] followed by [yaml.Unmarshal] into a
    [map[string]interface{}], read off the struct tags: a key per field,
    and a field tagged [omitempty] left out when it holds its zero value
    (an empty string, [false], [0], a nil pointer, a map or slice of
    length 0). Neither step fails on these structs, so the two error
    returns of [Workload] around them are not modelled. *)

Definition fields (l : list (option (gostring * value))) : gmap gostring value :=
  list_to_map (omap id l).

Definition always (k : string) (v : value) : option (gostring * value) :=
  Some (str k, v).

Definition omitempty_string (k : string) (s : gostring) : option (gostring * value) :=
  if s is [] then None else Some (str k, VString s).

Definition omitempty_bool (k : string) (b : bool) : option (gostring * value) :=
  if b then Some (str k, VBool true) else None.

Definition omitempty_int (k : string) (z : Z) : option (gostring * value) :=
  if decide (z = 0%Z) then None else Some (str k, VInt z).

Definition omitempty_ptr {A} (k : string) (f : A → value) (p : option A)
  : option (gostring * value) :=
  (λ a, (str k, f a)) <$> p.

Definition omitempty_strings (k : string) (l : list gostring) : option (gostring * value) :=
  if l is [] then None else Some (str k, VSlice (VString <$> l)).

Definition omitempty_string_map (k : string) (m : gmap gostring gostring)
  : option (gostring * value) :=
  if decide (m = ∅) then None else Some (str k, VMap (VString <$> m)).

Definition marshalHTTPProbe (h : avassaHTTPProbe) : value :=
  VMap (fields [ omitempty_string "scheme" (http_Scheme h);
                 omitempty_string "host" (http_Host h);
                 always "path" (VString (http_Path h));
                 always "port" (VInt (http_Port h));
                 omitempty_string_map "request-headers" (http_RequestHeaders h) ]).

Definition marshalProbeSpec (p : avassaProbeSpec) : value :=
  VMap (fields [ omitempty_ptr "http" marshalHTTPProbe (ps_HTTP p);
                 omitempty_ptr "tcp"
                   (λ t, VMap (fields [always "port" (VInt (tcp_Port t))])) (ps_TCP p);
                 omitempty_ptr "exec"
                   (λ e, VMap (fields [always "cmd" (VSlice (VString <$> exec_Cmd e))]))
                   (ps_Exec p);
                 omitempty_string "initial-delay" (ps_InitialDelay p);
                 omitempty_string "timeout" (ps_Timeout p);
                 omitempty_string "period" (ps_Period p);
                 omitempty_int "success-threshold" (ps_SuccessThreshold p);
                 omitempty_int "failure-threshold" (ps_FailureThreshold p) ]).

Definition marshalProbes (p : avassaProbes) : value :=
  VMap (fields [ omitempty_ptr "liveness" marshalProbeSpec (Liveness p);
                 omitempty_ptr "readiness" marshalProbeSpec (Readiness p) ]).

Definition marshalContainer {Y : YAML} (c : avassaContainer) : value :=
  VMap (fields [ always "name" (VString (ac_Name c));
                 always "mounts" (VSlice (yaml_roundtrip <$> ac_Mounts c));
                 omitempty_string "container-log-size" (ac_ContainerLogSize c);
                 omitempty_bool "container-log-archive" (ac_ContainerLogArchive c);
                 omitempty_string "shutdown-timeout" (ac_ShutdownTimeout c);
                 always "image" (VString (ac_Image c));
                 omitempty_strings "cmd" (ac_Cmd c);
                 omitempty_string_map "env" (ac_Env c);
                 omitempty_string "approle" (ac_Approle c);
                 omitempty_ptr "on-mounted-file-change"
                   (λ o, VMap (fields [always "restart" (VBool (Restart o))]))
                   (ac_OnMountedFileChange c);
                 omitempty_ptr "probes" marshalProbes (ac_Probes c) ]).

Definition marshalService {Y : YAML} (s : avassaService) : value :=
  VMap (fields [ always "name" (VString (svc_Name s));
                 always "mode" (VString (svc_Mode s));
                 always "replicas" (VInt (svc_Replicas s));
                 always "share-pid-namespace" (VBool (svc_SharePidNamespace s));
                 always "containers" (VSlice (marshalContainer <$> svc_Containers s)) ]).

Definition marshalApplication {Y : YAML} (app : avassaApplication) : gmap gostring value :=
  fields [ always "name" (VString (app_Name app));
           omitempty_string "version" (app_Version app);
           always "services" (VSlice (marshalService <$> app_Services app));
           omitempty_string "on-mutable-variable-change" (app_OnMutableVariableChange app);
           (if decide (app_Labels app = ∅) then None
            else Some (str "labels", VMap (yaml_roundtrip <$> app_Labels app)));
           omitempty_ptr "network"
             (λ n, VMap (fields [always "shared-application-network"
                                   (VString (SharedApplicationNetwork n))]))
             (app_Network app) ].

(** *** [convert.Workload] *)

(** The body of the loop of [Workload] over the cloned map of containers. *)
Definition convertContainer (workloadName : gostring) (scoreFile : option gostring)
    (sf : gostring → result gostring) (containerName : gostring)
    (container : Container) : result Container :=
  variables ←
    wrap (str "workload: " ++ workloadName ++ str ": container: "
            ++ containerName ++ str ": variables: ")
         (convertContainerVariables (c_Variables container) sf);
  files ←
    wrap (str "workload: " ++ workloadName ++ str ": container: "
            ++ containerName ++ str ": files: ")
         (convertContainerFiles (c_Files container) scoreFile sf);
  Ok {| c_Image := c_Image container; c_Command := c_Command container;
        c_Args := c_Args container;
        c_Variables := variables;
        c_Files := files;
        c_LivenessProbe := c_LivenessProbe container;
        c_ReadinessProbe := c_ReadinessProbe container |}.

Fixpoint convertContainers (workloadName : gostring) (scoreFile : option gostring)
    (sf : gostring → result gostring) (entries : list (gostring * Container))
    (containers : gmap gostring Container) : result (gmap gostring Container) :=
  match entries with
  | [] => Ok containers
  | (containerName, container) :: rest =>
      container ← convertContainer workloadName scoreFile sf containerName container;
      convertContainers workloadName scoreFile sf rest
        (<[containerName := container]> containers)
  end.

Definition Workload {SA : StateAPI} {Y : YAML} (currentState : State) (workloadName : gostring)
  : result (gmap gostring value) :=
  match GetResourceOutputForWorkload currentState workloadName with
  | Err e => Err (str "failed to generate outputs: " ++ e)
  | Ok resOutputs =>
      let w := default zeroWorkloadState (Workloads currentState !! workloadName) in
      let sf := BuildSubstitutionFunction (w_Metadata (Spec w)) resOutputs in
      let spec := Spec w in
      containers ← convertContainers workloadName (File w) sf
                     (range (w_Containers spec)) (w_Containers spec);
      app ← buildAvassaApplication (w_Metadata spec) workloadName containers (Some sf);
      Ok (marshalApplication app)
  end.

End with_collaborators.

End convert.

(** ** [internal/command] *)

Module command.

(** *** The output serialiser *)

Definition scalar (tag : string) (v : gostring) : Node :=
  mkNode ScalarNode (str tag) v [].

(** The loop that moves ["name"] to the front of the sorted keys:
    [before] holds, in reverse, the keys already passed. *)
Fixpoint moveNameFirst_go (before keys : list gostring) : option (list gostring) :=
  match keys with
  | [] => None
  | k :: rest =>
      if decide (k = str "name") then Some (k :: reverse before ++ rest)
      else moveNameFirst_go (k :: before) rest
  end.

Definition moveNameFirst (keys : list gostring) : list gostring :=
  default keys (moveNameFirst_go [] keys).

(** The key order of a mapping node, from the keys in [range] order. *)
Definition keyOrder (parentKey : gostring) (keys : list gostring) : list gostring :=
  if decide (parentKey = str "containers")
  then moveNameFirst (sort.Strings keys)
  else sort.Strings keys.

Section serialiser.
Context {R : MapRange}.

Fixpoint toYAMLNode (v : value) (parentKey : gostring) : Node :=
  match v with
  | VNil => scalar "!!null" (str "null")
  | VString t => scalar "!!str" t
  | VBool t => scalar "!!bool" (if t then str "true" else str "false")
  | VInt t => scalar "!!int" (strconv.Itoa t)
  | VInt64 t => scalar "!!int" (strconv.Itoa t)
  | VFloat64 t =>
      if f64_whole t then scalar "!!int" (strconv.Itoa (f64_int64 t))
      else scalar "!!float"
             (strings.TrimRight (strings.TrimRight (f64_Sprintf_f t) (str "0")) (str "."))
  | VSlice l =>
      mkNode SequenceNode (str "!!seq") [] ((λ el, toYAMLNode el parentKey) <$> l)
  | VMap t =>
      let keys := keyOrder parentKey ((range t).*1) in
      let children := map_imap (λ k x, Some (toYAMLNode x k)) t in
      mkNode MappingNode (str "!!map") []
        (k ← keys;
         [scalar "!!str" k; default (scalar "!!null" (str "null")) (children !! k)])
  | VOther _ enc => enc
  end.

(** The text that [encodeManifestWithNameFirst] writes. *)
Definition encodeManifestWithNameFirst {Y : YAML} (manifest : gmap gostring value)
  : gostring :=
  yaml_Encode (toYAMLNode (VMap manifest) []).

End serialiser.

(** *** The command line *)

(** The flags of [generate]; a flag is [Some] when it was given on the
    command line ([Changed]), and reads as its default otherwise. *)
Record Flags := {
  overrides_file : option gostring;
  override_property : option (list gostring);
  image : option gostring;
  output : option gostring;
  stdout : option bool }.

Definition GetString (f : option gostring) (def : gostring) : gostring := default def f.

(** The effects of the command itself, in order: the state directory
    loaded, a score file or an overrides file read, the state persisted,
    the output written. The files that a conversion reads for the content
    of container files are not among them. *)
Inductive event :=
| EvLoadStateDirectory
| EvReadFile (path : gostring)
| EvPersist
| EvStdout (text : gostring)
| EvWriteFile (path data : gostring)
| EvRename (oldpath newpath : gostring).

(** A step of the command: the effects it had and what it returned. *)
Definition io (A : Type) : Type := list event * result A.

Definition io_bind {A B} (m : io A) (k : A → io B) : io B :=
  match m with
  | (tr, Ok a) => let '(tr', r) := k a in (tr ++ tr', r)
  | (tr, Err e) => (tr, Err e)
  end.

Global Instance io_mbind : MBind io := λ A B k m, io_bind m k.

Definition lift {A} (r : result A) : io A := ([], r).
Definition emit {A} (ev : event) (r : result A) : io A := ([ev], r).
Definition fail {A} (e : error) : io A := ([], Err e).

Definition quote : gostring := [34%N].

Section generate.
Context {U : Unicode} {R : MapRange} {F : Framework} {FS : FileSystem} {Y : YAML}
        {O : Overrides} {S : Schema} {SA : StateAPI} {P : Provisioners}.

Definition parseAndApplyOverrideFile (entry : gostring) (flagName : gostring)
    (spec : gmap gostring value) : io (gmap gostring value) :=
  raw ← emit (EvReadFile entry)
          (wrap (str "--" ++ flagName ++ str " '" ++ entry
                   ++ str "' is invalid, failed to read file: ") (os_ReadFile entry));
  out ← lift (wrap (str "--" ++ flagName ++ str " '" ++ entry
                      ++ str "' is invalid: failed to decode yaml: ")
                (yaml_Unmarshal_map raw));
  lift (wrap (str "--" ++ flagName ++ str " '" ++ entry ++ str "' failed to apply: ")
          (mergo_Merge spec out)).

Definition parseAndApplyOverrideProperty (entry : gostring) (flagName : gostring)
    (spec : gmap gostring value) : result (gmap gostring value) :=
  match strings.SplitN2 entry 61%N with
  | [path; []] =>
      wrap (str "--" ++ flagName ++ str " '" ++ entry ++ str "' could not be applied: ")
        (OverridePathInMap spec (ParseDotPathParts path) true VNil)
  | [path; val] =>
      match yaml_Unmarshal val with
      | Err e => Err (str "--" ++ flagName ++ str " '" ++ entry
                        ++ str "' is invalid, failed to unmarshal value as json: " ++ e)
      | Ok value =>
          wrap (str "--" ++ flagName ++ str " '" ++ entry ++ str "' could not be applied: ")
            (OverridePathInMap spec (ParseDotPathParts path) false value)
      end
  | _ => Err (str "--" ++ flagName ++ str " '" ++ entry
                ++ str "' is invalid, expected a =-separated path and value")
  end.

Fixpoint applyOverrideProperties (entries : list gostring)
    (rawWorkload : gmap gostring value) : result (gmap gostring value) :=
  match entries with
  | [] => Ok rawWorkload
  | overridePropertyEntry :: rest =>
      rawWorkload ← parseAndApplyOverrideProperty overridePropertyEntry
                      (str "override-property") rawWorkload;
      applyOverrideProperties rest rawWorkload
  end.

(** The loop over [workload.Containers] that applies [--image]. *)
Fixpoint applyImage (v : gostring) (entries : list (gostring * Container))
    (containers : gmap gostring Container) : result (gmap gostring Container) :=
  match entries with
  | [] => Ok containers
  | (containerName, container) :: rest =>
      if decide (c_Image container = str ".") then
        if v is [] then
          Err (str "container '" ++ containerName
                 ++ str "' has image '.'; please provide an explicit image name via --image")
        else if decide (strings.TrimSpace v = str ".") then
          Err (str "container '" ++ containerName
                 ++ str "' has image '.'; please provide an explicit image name via --image")
        else
          let container :=
            {| c_Image := v; c_Command := c_Command container;
               c_Args := c_Args container; c_Variables := c_Variables container;
               c_Files := c_Files container;
               c_LivenessProbe := c_LivenessProbe container;
               c_ReadinessProbe := c_ReadinessProbe container |} in
          applyImage v rest (<[containerName := container]> containers)
      else applyImage v rest containers
  end.

(** The body of the loop over the sorted arguments. *)
Definition addScoreFile (flags : Flags) (currentState : State) (arg : gostring)
  : io State :=
  raw ← emit (EvReadFile arg)
          (wrap (str "failed to read input score file: " ++ arg ++ str ": ")
             (os_ReadFile arg));
  rawWorkload ← lift (wrap (str "failed to decode input score file: " ++ arg ++ str ": ")
                        (yaml_Unmarshal_map raw));
  rawWorkload ←
    (let v := GetString (overrides_file flags) [] in
     if v is [] then lift (Ok rawWorkload)
     else parseAndApplyOverrideFile v (str "overrides-file") rawWorkload);
  rawWorkload ← lift (applyOverrideProperties (default [] (override_property flags))
                        rawWorkload);
  '(rawWorkload, changes) ← lift (wrap (str "failed to upgrade spec: ")
                                    (ApplyCommonUpgradeTransforms rawWorkload));
  _ ← lift (wrap (str "invalid score file: " ++ arg ++ str ": ") (Validate rawWorkload));
  workload ← lift (wrap (str "failed to decode input score file: " ++ arg ++ str ": ")
                     (MapSpec rawWorkload));
  let v := GetString (image flags) [] in
  if decide (strings.TrimSpace v = str ".") then
    fail (str "invalid --image value: '.' is not a valid image name; please provide an explicit image name (e.g. 'repo/name:tag')")
  else
    containers ← lift (applyImage v (range (w_Containers workload))
                         (w_Containers workload));
    let workload :=
      {| w_Metadata := w_Metadata workload; w_Containers := containers |} in
    lift (wrap (str "failed to add score file to project: " ++ arg ++ str ": ")
            (WithWorkload currentState workload arg)).

Fixpoint addScoreFiles (flags : Flags) (currentState : State) (args : list gostring)
  : io State :=
  match args with
  | [] => lift (Ok currentState)
  | arg :: rest =>
      currentState ← addScoreFile flags currentState arg;
      addScoreFiles flags currentState rest
  end.

(** The loop that converts every workload of the state, in [range] order. *)
Fixpoint convertWorkloads (currentState : State) (names : list gostring)
    (outputManifests : list (gmap gostring value))
  : result (list (gmap gostring value)) :=
  match names with
  | [] => Ok outputManifests
  | workloadName :: rest =>
      match convert.Workload currentState workloadName with
      | Err e => Err (str "failed to convert workloads: " ++ e)
      | Ok manifest => convertWorkloads currentState rest (outputManifests ++ [manifest])
      end
  end.

(** The loop that fills the output buffer. *)
Fixpoint writeManifests (outputManifests : list (gmap gostring value)) : gostring :=
  match outputManifests with
  | [] => []
  | manifest :: rest =>
      str "---" ++ [10%N] ++ encodeManifestWithNameFirst manifest ++ writeManifests rest
  end.

(** [generateCmd.RunE]. *)
Definition generate (flags : Flags) (args : list gostring) : io unit :=
  sd ← emit EvLoadStateDirectory
         (wrap (str "failed to load existing state directory: ") LoadStateDirectory);
  match sd with
  | None => fail (str "state directory does not exist, please run " ++ quote
                    ++ str "init" ++ quote ++ str " first")
  | Some currentState =>
      if negb (length args =? 1)%nat
         && (bool_decide (is_Some (overrides_file flags))
             || bool_decide (is_Some (override_property flags))
             || bool_decide (is_Some (image flags)))
      then fail (str "cannot use --override-property, --overrides-file, or --image when 0 or more than 1 score files are provided")
      else
        let args := sort.Strings args in
        currentState ← addScoreFiles flags currentState args;
        if decide (Workloads currentState = ∅) then
          fail (str "project is empty, please add a score file")
        else
          currentState ← lift (wrap (str "failed to prime resources: ")
                                 (WithPrimedResources currentState));
          currentState ← lift (wrap (str "failed to provision resources: ")
                                 (ProvisionResources currentState));
          _ ← emit EvPersist (wrap (str "failed to persist state file: ")
                                (Persist currentState));
          outputManifests ← lift (convertWorkloads currentState
                                    ((range (Workloads currentState)).*1) []);
          let out := writeManifests outputManifests in
          let v := GetString (output flags) (str "manifests.yaml") in
          let toStdout := default false (stdout flags) in
          if toStdout || bool_decide (v = str "-") then emit (EvStdout out) (Ok ())
          else if v is [] then fail (str "no output file specified")
          else
            _ ← emit (EvWriteFile (v ++ str ".tmp") out)
                  (wrap (str "failed to write output file: ")
                     (os_WriteFile (v ++ str ".tmp") out));
            emit (EvRename (v ++ str ".tmp") v)
              (wrap (str "failed to complete writing output file: ")
                 (os_Rename (v ++ str ".tmp") v))
  end.

End generate.

End command.

(** ** The collaborators, as the specification describes them

    These instances make the development executable on concrete inputs. *)

Module model.

(** Modelled from the spec: the Substitution Engine of section 4.4
    ([framework.SubstituteString], absent from the sources). A [$$] yields
    a literal [$]; the text between [${] and the next [}] is a reference,
    replaced by what [inner] resolves it to; the first reference that does
    not resolve fails the whole substitution. [ref] holds, in reverse, the
    reference being read. *)
Fixpoint substitute (inner : gostring → result gostring) (ref : option gostring)
    (s : gostring) : result gostring :=
  match ref, s with
  | None, [] => Ok []
  | None, r :: rest =>
      if (r =? 36)%N then
        match rest with
        | r' :: rest' =>
            if (r' =? 36)%N then (r ::.) <$> substitute inner None rest'
            else if (r' =? 123)%N then substitute inner (Some []) rest'
            else (r ::.) <$> substitute inner None rest
        | [] => Ok [r]
        end
      else (r ::.) <$> substitute inner None rest
  | Some acc, [] => Ok (str "${" ++ reverse acc)
  | Some acc, r :: rest =>
      if (r =? 125)%N then
        v ← inner (reverse acc);
        (v ++.) <$> substitute inner None rest
      else substitute inner (Some (r :: acc)) rest
  end.

(** The path of a reference: its parts between dots. *)
Definition refParts (ref : gostring) : list gostring :=
  strings.FieldsFunc ref (λ r, (r =? 46)%N).

(** The value that a path reaches in a metadata tree. *)
Fixpoint lookupPath (path : list gostring) (v : value) : option value :=
  match path with
  | [] => Some v
  | k :: path' =>
      match v with
      | VMap m => x ← m !! k; lookupPath path' x
      | _ => None
      end
  end.

(** Modelled from the spec: the resolution of a reference of section 4.4
    ([framework.BuildSubstitutionFunction], absent from the sources):
    [metadata.<path>] against the metadata tree, [resources.<name>.<key>]
    against the outputs of the workload's resources; anything else, and
    any reference that reaches no text, is an error that names it. *)
Definition resolve (metadata : gmap gostring value)
    (outputs : gmap gostring (gmap gostring gostring)) (ref : gostring)
  : result gostring :=
  match refParts ref with
  | kind :: path =>
      if decide (kind = str "metadata") then
        match lookupPath path (VMap metadata) with
        | Some (VString s) => Ok s
        | _ => Err (str "invalid ref '" ++ ref ++ str "': unknown metadata path")
        end
      else if decide (kind = str "resources") then
        match path with
        | [name; key] =>
            match outputs !! name ≫= (.!! key) with
            | Some s => Ok s
            | None => Err (str "invalid ref '" ++ ref ++ str "': unknown resource output")
            end
        | _ => Err (str "invalid ref '" ++ ref ++ str "': unknown resource output")
        end
      else Err (str "invalid ref '" ++ ref ++ str "': unknown reference type")
  | [] => Err (str "invalid ref '" ++ ref ++ str "': not enough parts")
  end.

Definition framework : Framework :=
  {| OutputLookups := gmap gostring (gmap gostring gostring);
     ResourceStates := unit;
     BuildSubstitutionFunction := resolve;
     SubstituteString := λ src inner, substitute inner None src |}.

(** Case mapping that knows ASCII only. *)
Definition ascii_only : Unicode := {| unicode_lower := λ r, r |}.

(** Two [range] orders: the order of [map_to_list], and its reverse. *)
Definition range_forward : MapRange := {| range := λ V m, map_to_list m |}.
Definition range_backward : MapRange := {| range := λ V m, reverse (map_to_list m) |}.

(** A file system without files. *)
Definition no_files : FileSystem :=
  {| os_ReadFile := λ p, Err (str "open " ++ p ++ str ": no such file or directory");
     os_WriteFile := λ _ _, Ok ();
     os_Rename := λ _ _, Ok ();
     filepath_IsAbs := λ p, if p is r :: _ then (r =? 47)%N else false;
     filepath_Dir := λ p, p;
     filepath_Join := λ d p, d ++ str "/" ++ p |}.

(** A decoder that accepts nothing, around an arbitrary encoder. *)
Definition yaml_with (encode : Node → gostring) : YAML :=
  {| yaml_roundtrip := λ v, v;
     yaml_Encode := encode;
     yaml_Unmarshal := λ _, Err (str "yaml: not supported");
     yaml_Unmarshal_map := λ _, Err (str "yaml: not supported") |}.

(** Overrides that leave the document as it is. *)
Definition no_overrides : Overrides :=
  {| mergo_Merge := λ dst _, Ok dst;
     ParseDotPathParts := refParts;
     OverridePathInMap := λ m _ _ _, Ok m |}.

(** A schema that accepts every document and decodes its metadata. *)
Definition no_schema : Schema :=
  {| ApplyCommonUpgradeTransforms := λ m, Ok (m, []);
     Validate := λ _, Ok ();
     MapSpec := λ m, Ok {| w_Metadata := default ∅ (as_map (m !! str "metadata"));
                           w_Containers := ∅ |} |}.

(** Modelled from the spec: the workload merge of section 4.2
    ([WithWorkload], absent from the sources), which keys the record by the
    metadata name and replaces any record of that name; the project state
    on disk is [initial], and no workload has resources. *)
Definition state_api (initial : @State framework) : @StateAPI framework :=
  {| LoadStateDirectory := Ok (Some initial);
     Persist := λ _, Ok ();
     GetResourceOutputForWorkload := λ _ _, Ok (∅ : @OutputLookups framework);
     WithWorkload := λ st w file,
       match w_Metadata w !! str "name" with
       | Some (VString (_ :: _ as name)) =>
           Ok {| Workloads := <[name := {| Spec := w; File := Some file |}]> (Workloads st);
                 Resources := Resources st |}
       | _ => Err (str "missing name")
       end;
     WithPrimedResources := λ st, Ok st |}.

(** Provisioners with nothing to provision. *)
Definition provisioners : @Provisioners framework :=
  {| ProvisionResources := λ st, Ok st |}.

(** *** Concrete inputs *)

Definition container (image : string) : Container :=
  {| c_Image := str image; c_Command := []; c_Args := []; c_Variables := ∅;
     c_Files := ∅; c_LivenessProbe := None; c_ReadinessProbe := None |}.

Definition workload (name : string) (c : Container) : ScoreWorkloadState :=
  {| Spec := {| w_Metadata := {[ str "name" := VString (str name) ]};
                w_Containers := {[ str "main" := c ]} |};
     File := None |}.

Definition project (workloads : gmap gostring ScoreWorkloadState) : @State framework :=
  @Build_State framework workloads tt.

(** A project of two workloads, [a] and [b]. *)
Definition two_workloads : @State framework :=
  project {[ str "a" := workload "a" (container "img-a");
             str "b" := workload "b" (container "img-b") ]}.

End model.

(** ** The claims' own words, for comparison with the code *)

Module spec.

(** Collapsing every run of [-] into one. *)
Definition collapse_dashes (s : gostring) : gostring :=
  strings.Join (strings.FieldsFunc s convert.is_dash) (str "-").

(** The name sanitisation as section 4.6 words it: lowercase, replace what
    is outside [[a-z0-9-]] by [-], trim leading and trailing [-], collapse
    repeats of [-], and fall back to the fixed identifier when nothing is
    left. *)
Definition sanitize {U : Unicode} (name : gostring) : gostring :=
  let s := strings.ToLower name in
  let s := convert.replace_invalid <$> s in
  let s := strings.Trim s (str "-") in
  let s := collapse_dashes s in
  if s is [] then str "app" else s.

(** A workload whose metadata carries none of the [avassa.*] annotations. *)
Definition no_avassa_annotations (metadata : gmap gostring value) : Prop :=
  ∀ k : gostring, str "avassa." `prefix_of` k → convert.annotationsOf metadata !! k = None.

(** An annotation set to the boolean [b], as a boolean or as its text. *)
Definition set_to_bool (v : option value) (b : bool) : Prop :=
  v = Some (VBool b) ∨ v = Some (VString (if b then str "true" else str "false")).

(** An annotation value from which no number can be read: a value of a
    type that [asInt] has no case for, or a text that is not a number. *)
Definition malformed_int (v : value) : Prop :=
  match v with
  | VInt _ | VInt64 _ | VFloat64 _ => False
  | VString s => strconv.Atoi (strings.TrimSpace s) = None
  | _ => True
  end.

(** An annotation value from which no boolean can be read. *)
Definition malformed_bool (v : value) : Prop :=
  match v with
  | VBool _ => False
  | VString s => s ≠ str "true" ∧ s ≠ str "false"
  | _ => True
  end.

(** An annotation value of a type that [asString] has no case for. *)
Definition malformed_string (v : value) : Prop :=
  match v with
  | VNil | VSlice _ | VMap _ | VOther None _ => True
  | _ => False
  end.

(** The command line of a container as section 4.6 words it: the command
    tokens, then the arguments, each substituted, the empty and the
    whitespace-only ones dropped. *)
Definition cmd {F : Framework} (sf : gostring → result gostring)
    (command args : list gostring) : result (list gostring) :=
  filter (λ t, strings.TrimSpace t ≠ [])
    <$> mapM (λ t, SubstituteString t sf) (command ++ args).

(** Where an object sits in a document. [occurs pk inl v pk' inl' o]: in
    the value [v], itself under the key [pk] (and, when [inl], an element
    of a list there), the object [o] occurs with [pk'] the key of the
    nearest mapping entry around it and [inl'] telling whether [o] is an
    element of a list under that key. *)
Inductive occurs :
  gostring → bool → value → gostring → bool → gmap gostring value → Prop :=
| occurs_here pk inl m : occurs pk inl (VMap m) pk inl m
| occurs_field pk inl m k x pk' inl' o :
    m !! k = Some x → occurs k false x pk' inl' o → occurs pk inl (VMap m) pk' inl' o
| occurs_elem pk inl l x pk' inl' o :
    x ∈ l → occurs pk true x pk' inl' o → occurs pk inl (VSlice l) pk' inl' o.

(** [subnode n root]: the node [n] is [root] or lies within its content. *)
Inductive subnode (n : Node) : Node → Prop :=
| subnode_refl : subnode n n
| subnode_child parent c : c ∈ n_Content parent → subnode n c → subnode n parent.

(** The keys of a mapping node, in the order of its content, which
    alternates keys and values. *)
Fixpoint alternate {A} (l : list A) : list A :=
  match l with
  | x :: _ :: l' => x :: alternate l'
  | _ => l
  end.

Definition mapping_keys (n : Node) : list gostring :=
  n_Value <$> alternate (n_Content n).

(** The shape shared by the loops over the entries of a map: each entry
    is converted by [f] and stored under its key, and the first error ends
    the loop. *)
Fixpoint insertM {A B} (f : gostring → A → result B) (entries : list (gostring * A))
    (acc : gmap gostring B) : result (gmap gostring B) :=
  match entries with
  | [] => Ok acc
  | (k, a) :: rest => b ← f k a; insertM f rest (<[k := b]> acc)
  end.

(** The text of a file before substitution: its content, or what is read
    from its source when it has no content. *)
Definition file_text {FS : FileSystem} (scoreFile : option gostring)
    (file : ContainerFile) (raw : gostring) : Prop :=
  cf_Content file = Some raw
  ∨ cf_Content file = None
    ∧ ∃ src, cf_Source file = Some src
             ∧ os_ReadFile (convert.sourcePath scoreFile src) = Ok raw.



(** A container that kept its command and its arguments. *)
Definition same_command (c c' : Container) : Prop :=
  c_Command c' = c_Command c ∧ c_Args c' = c_Args c.

(** An entry of a marshalled struct, when present, has the key [k]. *)
Definition entry_key (o : option (gostring * value)) (k : gostring) : Prop :=
  ∀ kv, o = Some kv → kv.1 = k.

End spec.

(** ** Concrete inputs *)

Module inputs.

Import model command.

Definition plain_metadata : gmap gostring value :=
  {[ str "name" := VString (str "example") ]}.

Definition one_container : gmap gostring Container :=
  {[ str "main" := container "repo/img" ]}.

(** Annotations from which no number and no boolean can be read. *)
Definition malformed_metadata : gmap gostring value :=
  {[ str "name" := VString (str "example");
     str "annotations" :=
       VMap {[ str "avassa.replicas" := VString (str "many");
               str "avassa.share-pid-namespace" := VString (str "yes") ]} ]}.

(** A container whose one command token has blanks around it. *)
Definition padded_command : Container :=
  {| c_Image := str "repo/img"; c_Command := [str " ls "]; c_Args := [];
     c_Variables := ∅; c_Files := ∅;
     c_LivenessProbe := None; c_ReadinessProbe := None |}.




(** A document whose key [containers] holds an object, not a list. *)
Definition containers_object : gmap gostring value :=
  {[ str "a" := VString (str "x"); str "name" := VString (str "y") ]}.

Definition containers_document : value :=
  VMap {[ str "containers" := VMap containers_object ]}.

(** The same object as the one element of a list under [containers]. *)
Definition containers_list_document : value :=
  VMap {[ str "containers" := VSlice [VMap containers_object] ]}.

(** A workload whose variable refers to a metadata path that does not
    exist. *)
Definition broken_reference : @State framework :=
  project {[ str "example" :=
    {| Spec := {| w_Metadata := plain_metadata;
                  w_Containers :=
                    {[ str "main" :=
                       {| c_Image := str "repo/img"; c_Command := []; c_Args := [];
                          c_Variables :=
                            {[ str "DYNAMIC" := str "${metadata.missing}" ]};
                          c_Files := ∅;
                          c_LivenessProbe := None; c_ReadinessProbe := None |} ]} |};
       File := None |} ]}.

(** A workload whose metadata holds a text that looks like a placeholder,
    referred to by a variable, a file and a command token. *)
Definition placeholder_metadata : gmap gostring value :=
  {[ str "name" := VString (str "example");
     str "raw" := VString (str "${metadata.name}") ]}.

Definition placeholder_container : Container :=
  {| c_Image := str "repo/img";
     c_Command := [str "echo"]; c_Args := [str "${metadata.raw}"];
     c_Variables := {[ str "V" := str "${metadata.raw}" ]};
     c_Files :=
       {[ str "/etc/motd" :=
          {| cf_Content := Some (str "hello ${metadata.raw}"); cf_Source := None;
             cf_NoExpand := None; cf_Mode := None |} ]};
     c_LivenessProbe := None; c_ReadinessProbe := None |}.

Definition placeholder_text : @State framework :=
  project {[ str "example" :=
    {| Spec := {| w_Metadata := placeholder_metadata;
                  w_Containers := {[ str "main" := placeholder_container ]} |};
       File := None |} ]}.

(** Two files and an image given on the command line. *)
Definition image_flag : Flags :=
  {| overrides_file := None; override_property := None;
     image := Some (str "repo/img:1"); output := None; stdout := None |}.

Definition two_files : list gostring := [str "b.yaml"; str "a.yaml"].

(** No file, and the manifests written to the standard output. *)
Definition to_stdout : Flags :=
  {| overrides_file := None; override_property := None; image := None;
     output := Some (str "-"); stdout := None |}.

End inputs.

(** * Verification *)

Import convert command.

(** ** Trimming *)

Section trim.
Variable f : rune → bool.
Implicit Types s x y : gostring.



















End trim.

(** ** Name sanitisation *)












(** ** The application: what [buildAvassaApplication] returns *)

Section build.
Context {U : Unicode} {R : MapRange} {F : Framework}.

Lemma buildContainers_spec ann wn cs sf names acc acs :
  buildContainers ann wn cs sf names acc = Ok acs →
  ∃ new, acs = acc ++ new
    ∧ Forall2 (λ cname ac,
        buildContainer ann wn cname (default zeroContainer (cs !! cname)) sf = Ok ac)
        names new.
Proof.
  revert acc. induction names as [|cname names IH]; intros acc; simpl.
  - intros [= <-]. exists []. by rewrite app_nil_r.
  - destruct (buildContainer ann wn cname _ sf) as [ac|e] eqn:E; [|done].
    intros H. apply IH in H as (new & -> & H).
    exists (ac :: new). split; [by rewrite <- app_assoc | by constructor].
Qed.

Lemma buildContainers_is_Err ann ann' wn cs sf names acc acc' :
  is_Err (buildContainers ann wn cs sf names acc)
  = is_Err (buildContainers ann' wn cs sf names acc').
Proof.
  revert acc acc'. induction names as [|cname names IH]; intros acc acc'; simpl; [done|].
  unfold buildContainer.
  destruct (if (0 <? _)%nat then _ else _) as [cmd|e]; simpl; [apply IH | done].
Qed.

(** The application that comes back has one service, and its containers
    are those of [buildContainer] for the sorted names. *)
Lemma buildAvassaApplication_inv md wn cs sf app :
  buildAvassaApplication md wn cs sf = Ok app →
  ∃ svc, app_Services app = [svc]
    ∧ svc_Replicas svc = asInt (annotationsOf md !! str "avassa.replicas") 1
    ∧ svc_SharePidNamespace svc
      = asBool (annotationsOf md !! str "avassa.share-pid-namespace") false
    ∧ Forall2 (λ cname ac,
        buildContainer (annotationsOf md) wn cname
          (default zeroContainer (cs !! cname)) sf = Ok ac)
        (sort.Strings ((range cs).*1)) (svc_Containers svc).
Proof.
  unfold buildAvassaApplication.
  destruct (buildContainers _ _ _ _ _ _) as [acs|e] eqn:E; [|done].
  intros [= <-]. simpl. eexists. split; [done|]. simpl.
  apply buildContainers_spec in E as (new & -> & H). done.
Qed.

Lemma buildAvassaApplication_container md wn cs sf app svc ac :
  buildAvassaApplication md wn cs sf = Ok app →
  svc ∈ app_Services app → ac ∈ svc_Containers svc →
  ∃ cname c, buildContainer (annotationsOf md) wn cname c sf = Ok ac.
Proof.
  intros H Hs Ha. apply buildAvassaApplication_inv in H as (svc' & E & _ & _ & H).
  rewrite E in Hs. apply list_elem_of_singleton in Hs as ->.
  apply list_elem_of_lookup in Ha as (i & Hi).
  destruct (Forall2_lookup_r _ _ _ _ _ H Hi) as (cname & _ & Hc). eauto.
Qed.

Lemma buildContainer_fields ann wn cname c sf ac :
  buildContainer ann wn cname c sf = Ok ac →
  ac_Name ac = cname
  ∧ ac_ContainerLogSize ac
    = firstNonEmpty [asString (ann !! str "avassa.log-size"); str "100 MB"]
  ∧ ac_ContainerLogArchive ac = asBool (ann !! str "avassa.log-archive") false
  ∧ ac_ShutdownTimeout ac
    = firstNonEmpty [asString (ann !! str "avassa.shutdown-timeout"); str "10s"]
  ∧ ac_Approle ac = asString (ann !! str "avassa.approle")
  ∧ ac_OnMountedFileChange ac
    = (if asBool (ann !! str "avassa.on-mounted-file-change-restart") false
       then Some {| Restart := true |} else None)
  ∧ ac_Env ac = c_Variables c
  ∧ ac_Image ac = c_Image c.
Proof.
  unfold buildContainer.
  destruct (if (0 <? _)%nat then _ else _) as [cmd|e]; [|done].
  intros [= <-]. simpl. done.
Qed.

Lemma buildAvassaApplication_top md wn cs sf app :
  buildAvassaApplication md wn cs sf = Ok app →
  app_OnMutableVariableChange app
  = (if asString (annotationsOf md !! str "avassa.on-mutable-variable-change") is []
     then str "restart-service-instance"
     else asString (annotationsOf md !! str "avassa.on-mutable-variable-change"))
  ∧ app_Network app
    = (if asString (annotationsOf md !! str "avassa.network") is [] then None
       else Some {| SharedApplicationNetwork :=
                      asString (annotationsOf md !! str "avassa.network") |})
  ∧ app_Version app
    = strings.TrimSpace (asString (annotationsOf md !! str "avassa.io/version")).
Proof.
  unfold buildAvassaApplication.
  destruct (buildContainers _ _ _ _ _ _) as [acs|e] eqn:E; [|done].
  intros [= <-]. simpl. done.
Qed.

End build.

Lemma asBool_true v : asBool v false = true → spec.set_to_bool v true.
Proof.
  destruct v as [[]|]; simpl; try done.
  - repeat case_decide; try done. subst. by right.
  - destruct b; [by left | done].
Qed.

Lemma asBool_set v b def : spec.set_to_bool v b → asBool v def = b.
Proof. by intros [-> | ->]; destruct b. Qed.

Lemma asString_is_Some v : asString v ≠ [] → is_Some v.
Proof. destruct v; [eauto | done]. Qed.

Lemma firstNonEmpty_set s def :
  strings.TrimSpace s ≠ [] → firstNonEmpty [s; def] = s.
Proof. simpl. by destruct (strings.TrimSpace s). Qed.


(** ** Defaults and annotations *)

Ltac absent H key :=
  let E := fresh "E" in
  pose proof (H key ltac:(by eexists)) as E;
  repeat match goal with
         | X : context [_ !! key] |- _ =>
             lazymatch X with E => fail | _ => rewrite E in X end
         end.

(** C3. Without [avassa.*] annotations the application carries the
    defaults (replicas 1, share-pid-namespace false, log size 100 MB, log
    archive false, shutdown timeout 10s, restart-service-instance); the
    network, the approle and the restart directive appear only when their
    annotation is present (the directive only when it is true); and an
    annotation that is set overrides its default. *)
Theorem C3_defaults_and_overrides {U : Unicode} {R : MapRange} {F : Framework} md wn cs sf app :
  buildAvassaApplication md wn cs sf = Ok app →
  let ann := annotationsOf md in
  (spec.no_avassa_annotations md →
     app_OnMutableVariableChange app = str "restart-service-instance"
     ∧ app_Network app = None
     ∧ ∀ svc, svc ∈ app_Services app →
         svc_Replicas svc = 1%Z ∧ svc_SharePidNamespace svc = false
         ∧ ∀ ac, ac ∈ svc_Containers svc →
             ac_ContainerLogSize ac = str "100 MB"
             ∧ ac_ContainerLogArchive ac = false
             ∧ ac_ShutdownTimeout ac = str "10s"
             ∧ ac_Approle ac = []
             ∧ ac_OnMountedFileChange ac = None)
  ∧ ((is_Some (app_Network app) → is_Some (ann !! str "avassa.network"))
     ∧ ∀ svc ac, svc ∈ app_Services app → ac ∈ svc_Containers svc →
         (ac_Approle ac ≠ [] → is_Some (ann !! str "avassa.approle"))
         ∧ (∀ o, ac_OnMountedFileChange ac = Some o →
              Restart o = true
              ∧ spec.set_to_bool (ann !! str "avassa.on-mounted-file-change-restart") true))
  ∧ ((∀ s, ann !! str "avassa.on-mutable-variable-change" = Some (VString s) →
         s ≠ [] → app_OnMutableVariableChange app = s)
     ∧ (∀ s, ann !! str "avassa.network" = Some (VString s) → s ≠ [] →
         app_Network app = Some {| SharedApplicationNetwork := s |})
     ∧ ∀ svc, svc ∈ app_Services app →
         (∀ n, ann !! str "avassa.replicas" = Some (VInt n) → svc_Replicas svc = n)
         ∧ (∀ s n, ann !! str "avassa.replicas" = Some (VString s) →
              strconv.Atoi (strings.TrimSpace s) = Some n → svc_Replicas svc = n)
         ∧ (∀ b, spec.set_to_bool (ann !! str "avassa.share-pid-namespace") b →
              svc_SharePidNamespace svc = b)
         ∧ ∀ ac, ac ∈ svc_Containers svc →
             (∀ s, ann !! str "avassa.log-size" = Some (VString s) →
                strings.TrimSpace s ≠ [] → ac_ContainerLogSize ac = s)
             ∧ (∀ b, spec.set_to_bool (ann !! str "avassa.log-archive") b →
                  ac_ContainerLogArchive ac = b)
             ∧ (∀ s, ann !! str "avassa.shutdown-timeout" = Some (VString s) →
                  strings.TrimSpace s ≠ [] → ac_ShutdownTimeout ac = s)
             ∧ (∀ s, ann !! str "avassa.approle" = Some (VString s) →
                  ac_Approle ac = s)
             ∧ (spec.set_to_bool (ann !! str "avassa.on-mounted-file-change-restart") true →
                  ac_OnMountedFileChange ac = Some {| Restart := true |})).
Proof.
  intros Hb ann.
  pose proof (buildAvassaApplication_top _ _ _ _ _ Hb) as (Hmut & Hnet & _).
  pose proof (buildAvassaApplication_inv _ _ _ _ _ Hb) as (svc0 & Hsvc & Hrep & Hpid & _).
  assert (∀ svc ac, svc ∈ app_Services app → ac ∈ svc_Containers svc →
            ∃ cname c, buildContainer ann wn cname c sf = Ok ac) as Hcont.
  { intros. by eapply buildAvassaApplication_container. }
  fold ann in Hmut, Hnet, Hrep, Hpid.
  split; [|split].
  - intros Hno. unfold spec.no_avassa_annotations in Hno. fold ann in Hno.
    absent Hno (str "avassa.on-mutable-variable-change"). absent Hno (str "avassa.network").
    absent Hno (str "avassa.replicas"). absent Hno (str "avassa.share-pid-namespace").
    simpl in Hmut, Hnet, Hrep, Hpid.
    split; [done|]. split; [done|].
    intros svc Hs. rewrite Hsvc in Hs. apply list_elem_of_singleton in Hs as ->.
    split; [done|]. split; [done|].
    intros ac Hac. destruct (Hcont svc0 ac) as (cname & c & Hc); [by rewrite Hsvc; left | done |].
    apply buildContainer_fields in Hc as (_ & H1 & H2 & H3 & H4 & H5 & _).
    clear Hcont.
    absent Hno (str "avassa.log-size"). absent Hno (str "avassa.log-archive").
    absent Hno (str "avassa.shutdown-timeout"). absent Hno (str "avassa.approle").
    absent Hno (str "avassa.on-mounted-file-change-restart").
    simpl in H1, H2, H3, H4, H5. done.
  - split.
    + rewrite Hnet. intros Hs. apply asString_is_Some.
      by destruct (asString (ann !! str "avassa.network")); [destruct Hs|].
    + intros svc ac Hs Hac. destruct (Hcont svc ac Hs Hac) as (cname & c & Hc).
      apply buildContainer_fields in Hc as (_ & _ & _ & _ & H4 & H5 & _).
      split.
      * rewrite H4. apply asString_is_Some.
      * intros o. rewrite H5.
        destruct (asBool (ann !! str "avassa.on-mounted-file-change-restart") false) eqn:E;
          [|done].
        intros [= <-]. split; [done|]. by apply asBool_true.
  - split; [|split].
    + intros s Hs Hne. rewrite Hmut, Hs. simpl. by destruct s.
    + intros s Hs Hne. rewrite Hnet, Hs. simpl. by destruct s.
    + intros svc Hs. pose proof Hs as Hs'.
      rewrite Hsvc in Hs'. apply list_elem_of_singleton in Hs' as ->.
      split; [|split; [|split]].
      * intros n Hn. by rewrite Hrep, Hn.
      * intros s n Hn Ha. by rewrite Hrep, Hn; simpl; rewrite Ha.
      * intros b Hbv. rewrite Hpid. by apply asBool_set.
      * intros ac Hac. destruct (Hcont svc0 ac Hs Hac) as (cname & c & Hc).
        apply buildContainer_fields in Hc as (_ & H1 & H2 & H3 & H4 & H5 & _).
        split; [|split; [|split; [|split]]].
        -- intros s Hv Hne. rewrite H1, Hv. by apply firstNonEmpty_set.
        -- intros b Hv. rewrite H2. by apply asBool_set.
        -- intros s Hv Hne. rewrite H3, Hv. by apply firstNonEmpty_set.
        -- intros s Hv. by rewrite H4, Hv.
        -- intros Hv. rewrite H5. by rewrite (asBool_set _ true).
Qed.

Lemma asInt_malformed v def : spec.malformed_int v → asInt (Some v) def = def.
Proof. destruct v; simpl; try done. by intros ->. Qed.

Lemma asBool_malformed v def : spec.malformed_bool v → asBool (Some v) def = def.
Proof. destruct v; simpl; try done. intros [??]. by repeat case_decide. Qed.

Lemma asString_malformed v : spec.malformed_string v → asString (Some v) = [].
Proof. destruct v as [| | | | | | | |[]]; simpl; done. Qed.

(** C10. An annotation value of a type its accessor has no case for, or
    of a text it cannot parse, leaves the setting at its default; and no
    metadata makes the conversion fail: whether [buildAvassaApplication]
    returns an error does not depend on the metadata. *)
Theorem C10_malformed_annotations_default {U : Unicode} {R : MapRange} {F : Framework} md wn cs sf :
  (∀ md', is_Err (buildAvassaApplication md wn cs sf)
          = is_Err (buildAvassaApplication md' wn cs sf))
  ∧ ∀ app, buildAvassaApplication md wn cs sf = Ok app →
      let ann := annotationsOf md in
      (∀ v, ann !! str "avassa.on-mutable-variable-change" = Some v →
         spec.malformed_string v →
         app_OnMutableVariableChange app = str "restart-service-instance")
      ∧ (∀ v, ann !! str "avassa.network" = Some v → spec.malformed_string v →
           app_Network app = None)
      ∧ (∀ v, ann !! str "avassa.io/version" = Some v → spec.malformed_string v →
           app_Version app = [])
      ∧ ∀ svc, svc ∈ app_Services app →
          (∀ v, ann !! str "avassa.replicas" = Some v → spec.malformed_int v →
             svc_Replicas svc = 1%Z)
          ∧ (∀ v, ann !! str "avassa.share-pid-namespace" = Some v →
               spec.malformed_bool v → svc_SharePidNamespace svc = false)
          ∧ ∀ ac, ac ∈ svc_Containers svc →
              (∀ v, ann !! str "avassa.log-size" = Some v → spec.malformed_string v →
                 ac_ContainerLogSize ac = str "100 MB")
              ∧ (∀ v, ann !! str "avassa.log-archive" = Some v → spec.malformed_bool v →
                   ac_ContainerLogArchive ac = false)
              ∧ (∀ v, ann !! str "avassa.shutdown-timeout" = Some v →
                   spec.malformed_string v → ac_ShutdownTimeout ac = str "10s")
              ∧ (∀ v, ann !! str "avassa.approle" = Some v → spec.malformed_string v →
                   ac_Approle ac = [])
              ∧ (∀ v, ann !! str "avassa.on-mounted-file-change-restart" = Some v →
                   spec.malformed_bool v → ac_OnMountedFileChange ac = None).
Proof.
  split.
  - intros md'. unfold buildAvassaApplication.
    pose proof (buildContainers_is_Err (annotationsOf md) (annotationsOf md') wn cs sf
                  (sort.Strings ((range cs).*1)) [] []) as H.
    destruct (buildContainers (annotationsOf md) _ _ _ _ _),
             (buildContainers (annotationsOf md') _ _ _ _ _); done.
  - intros app Hb ann.
    pose proof (buildAvassaApplication_top _ _ _ _ _ Hb) as (Hmut & Hnet & Hver).
    pose proof (buildAvassaApplication_inv _ _ _ _ _ Hb) as (svc0 & Hsvc & Hrep & Hpid & _).
    fold ann in Hmut, Hnet, Hver, Hrep, Hpid.
    split; [|split; [|split]].
    + intros v Hv Hm. by rewrite Hmut, Hv, asString_malformed.
    + intros v Hv Hm. by rewrite Hnet, Hv, asString_malformed.
    + intros v Hv Hm. by rewrite Hver, Hv, asString_malformed.
    + intros svc Hs. pose proof Hs as Hs'.
      rewrite Hsvc in Hs'. apply list_elem_of_singleton in Hs' as ->.
      split; [|split].
      * intros v Hv Hm. by rewrite Hrep, Hv, asInt_malformed.
      * intros v Hv Hm. by rewrite Hpid, Hv, asBool_malformed.
      * intros ac Hac.
        destruct (buildAvassaApplication_container _ _ _ _ _ _ _ Hb Hs Hac)
          as (cname & c & Hc).
        apply buildContainer_fields in Hc as (_ & H1 & H2 & H3 & H4 & H5 & _).
        fold ann in H1, H2, H3, H4, H5.
        split; [|split; [|split; [|split]]]; intros v Hv Hm.
        -- by rewrite H1, Hv, asString_malformed.
        -- by rewrite H2, Hv, asBool_malformed.
        -- by rewrite H3, Hv, asString_malformed.
        -- by rewrite H4, Hv, asString_malformed.
        -- by rewrite H5, Hv, asBool_malformed.
Qed.

(** ** C2: the application name *)





(** The branch of [sanitizeName] that collapses repeated dashes is never
    taken: two blanks inside a name stay two dashes. *)
Example sanitizeName_keeps_repeated_dashes {U : Unicode} :
  sanitizeName (str "a  b") = str "a--b" ∧ spec.sanitize (str "a  b") = str "a-b".
Proof. split; reflexivity. Qed.



Lemma C3_defaults_witness :
  ∃ app,
    buildAvassaApplication (U:=model.ascii_only) (R:=model.range_forward)
      (F:=model.framework) inputs.plain_metadata (str "example")
      inputs.one_container None = Ok app
    ∧ app_OnMutableVariableChange app = str "restart-service-instance"
    ∧ app_Network app = None.
Proof.
  eexists. split; [vm_compute; reflexivity|].
  pose proof (C3_defaults_and_overrides (U:=model.ascii_only) (R:=model.range_forward)
      (F:=model.framework) inputs.plain_metadata (str "example")
      inputs.one_container None _ ltac:(vm_compute; reflexivity)) as (Hd & _).
  destruct Hd as (H1 & H2 & _); [|done].
  intros k _.
  replace (annotationsOf inputs.plain_metadata) with (∅ : gmap gostring value)
    by (vm_compute; reflexivity).
  apply lookup_empty.
Defined.

Lemma C10_malformed_witness :
  ∃ app,
    buildAvassaApplication (U:=model.ascii_only) (R:=model.range_forward)
      (F:=model.framework) inputs.malformed_metadata (str "example")
      inputs.one_container None = Ok app
    ∧ ∀ svc, svc ∈ app_Services app →
        svc_Replicas svc = 1%Z ∧ svc_SharePidNamespace svc = false.
Proof.
  eexists. split; [vm_compute; reflexivity|].
  pose proof (C10_malformed_annotations_default (U:=model.ascii_only)
      (R:=model.range_forward) (F:=model.framework) inputs.malformed_metadata
      (str "example") inputs.one_container None) as (_ & H).
  specialize (H _ ltac:(vm_compute; reflexivity)) as (_ & _ & _ & H).
  intros svc Hs. destruct (H svc Hs) as (H1 & H2 & _). split.
  - apply (H1 (VString (str "many"))); [vm_compute; reflexivity | vm_compute; reflexivity].
  - apply (H2 (VString (str "yes"))); [vm_compute; reflexivity | vm_compute; done].
Defined.

(** ** Commands *)

Section cmd.
Context {U : Unicode} {R : MapRange} {F : Framework}.

Lemma buildCmd_Ok wn cname sf combined cmdOut out :
  buildCmd wn cname (Some sf) combined cmdOut = Ok out →
  ∃ subs,
    Forall2 (λ t r, SubstituteString t sf = Ok r)
      (filter (λ t, t ≠ []) (strings.TrimSpace <$> combined)) subs
    ∧ out = cmdOut ++ filter (λ t, t ≠ []) (strings.TrimSpace <$> subs).
Proof.
  revert cmdOut. induction combined as [|part rest IH]; intros cmdOut; simpl.
  - intros [= <-]. exists []. split; [constructor | by rewrite app_nil_r].
  - destruct (strings.TrimSpace part) as [|a p] eqn:Ep.
    + intros H. apply IH in H as (subs & H1 & H2). exists subs.
      by rewrite filter_cons_False by naive_solver.
    + rewrite filter_cons_True by done.
      destruct (SubstituteString (a :: p) sf) as [p'|e] eqn:Es; [|done].
      destruct (strings.TrimSpace p') as [|b t] eqn:Et; intros H;
        apply IH in H as (subs & H1 & H2); exists (p' :: subs); simpl; rewrite Et.
      * split; [by constructor|]. by rewrite filter_cons_False by naive_solver.
      * split; [by constructor|]. rewrite filter_cons_True by done.
        by rewrite H2, <- app_assoc.
Qed.



Lemma buildContainer_cmd ann wn cname c sf ac :
  buildContainer ann wn cname c sf = Ok ac →
  (if (0 <? length (c_Command c) + length (c_Args c))%nat
   then buildCmd wn cname sf (c_Command c ++ c_Args c) []
   else Ok []) = Ok (ac_Cmd ac).
Proof.
  unfold buildContainer.
  destruct (if (0 <? _)%nat then _ else _) as [cmd|e]; [|done].
  by intros [= <-].
Qed.

End cmd.

Lemma range_keys_sorted {R : MapRange} {V} (m : gmap gostring V) k v :
  range_ok R → m !! k = Some v → k ∈ sort.Strings ((range m).*1).
Proof.
  intros Hr Hk. unfold sort.Strings. rewrite merge_sort_Permutation, (Hr V m).
  apply list_elem_of_fmap. exists (k, v). split; [done|].
  by apply elem_of_map_to_list.
Qed.

Lemma buildAvassaApplication_lookup {U : Unicode} {R : MapRange} {F : Framework}
    md wn cs sf app cname c :
  range_ok R → buildAvassaApplication md wn cs sf = Ok app → cs !! cname = Some c →
  ∃ svc ac, svc ∈ app_Services app ∧ ac ∈ svc_Containers svc
    ∧ buildContainer (annotationsOf md) wn cname c sf = Ok ac.
Proof.
  intros Hr Hb Hc.
  apply buildAvassaApplication_inv in Hb as (svc & Hs & _ & _ & H).
  pose proof (range_keys_sorted cs cname c Hr Hc) as Hin.
  apply list_elem_of_lookup in Hin as (i & Hi).
  destruct (Forall2_lookup_l _ _ _ _ _ H Hi) as (ac & Hac & Hbc).
  rewrite Hc in Hbc. exists svc, ac. split; [rewrite Hs; by left|].
  split; [by eapply list_elem_of_lookup_2 | done].
Qed.

(** *** The keys of a marshalled struct *)

Lemma fields_skip o l k k' :
  spec.entry_key o k' → k' ≠ k → fields (o :: l) !! k = fields l !! k.
Proof.
  intros Ho Hne. unfold fields. destruct o as [[k0 v]|]; simpl; [|done].
  rewrite lookup_insert_ne; [done|]. by rewrite <- (Ho (k0, v) eq_refl) in Hne.
Qed.

Lemma fields_nil k : fields [] !! k = None.
Proof. apply lookup_empty. Qed.

Lemma fields_None l k : fields (None :: l) !! k = fields l !! k.
Proof. done. Qed.

Lemma fields_Some l k v : fields (Some (k, v) :: l) !! k = Some v.
Proof. unfold fields. simpl. apply lookup_insert_eq. Qed.

Lemma entry_key_always k v : spec.entry_key (always k v) (str k).
Proof. by intros kv [= <-]. Qed.
Lemma entry_key_string k s : spec.entry_key (omitempty_string k s) (str k).
Proof. unfold omitempty_string. destruct s; [done|]. by intros kv [= <-]. Qed.
Lemma entry_key_bool k b : spec.entry_key (omitempty_bool k b) (str k).
Proof. unfold omitempty_bool. destruct b; [|done]. by intros kv [= <-]. Qed.
Lemma entry_key_int k z : spec.entry_key (omitempty_int k z) (str k).
Proof. unfold omitempty_int. case_decide; [done|]. by intros kv [= <-]. Qed.
Lemma entry_key_ptr {A} k (f : A → value) p : spec.entry_key (omitempty_ptr k f p) (str k).
Proof. destruct p; [|done]. by intros kv [= <-]. Qed.
Lemma entry_key_strings k l : spec.entry_key (omitempty_strings k l) (str k).
Proof. unfold omitempty_strings. destruct l; [done|]. by intros kv [= <-]. Qed.
Lemma entry_key_string_map k m : spec.entry_key (omitempty_string_map k m) (str k).
Proof. unfold omitempty_string_map. case_decide; [done|]. by intros kv [= <-]. Qed.

Ltac skip_field :=
  erewrite fields_skip;
  [ | first [ apply entry_key_always | apply entry_key_string | apply entry_key_bool
            | apply entry_key_int | apply entry_key_ptr | apply entry_key_strings
            | apply entry_key_string_map ]
    | by vm_compute ].

(** The key [cmd] of a container is left out exactly when its command line
    is empty. *)
Lemma marshalContainer_cmd {Y : YAML} ac :
  ∃ m, marshalContainer ac = VMap m ∧ (m !! str "cmd" = None ↔ ac_Cmd ac = []).
Proof.
  eexists. split; [reflexivity|].
  do 6 skip_field.
  destruct (ac_Cmd ac) as [|t ts].
  - rewrite fields_None. do 4 skip_field. by rewrite fields_nil.
  - unfold omitempty_strings. by rewrite fields_Some.
Qed.

Lemma range_forward_ok : range_ok model.range_forward.
Proof. by intros V m. Qed.

(** C5, as the code has it. The command line of every container is made
    of its command tokens followed by its argument tokens, where each
    token has the white space around it cut off, is dropped when nothing is
    left, is substituted on its own, and has the white space around the
    result cut off, being dropped again when nothing is left; the key [cmd]
    is left out when no token remains. *)
Theorem C5_cmd_tokens {U : Unicode} {R : MapRange} {F : Framework} {Y : YAML}
    md wn cs sf app cname c :
  range_ok R →
  buildAvassaApplication md wn cs (Some sf) = Ok app →
  cs !! cname = Some c →
  ∃ svc ac subs,
    svc ∈ app_Services app ∧ ac ∈ svc_Containers svc ∧ ac_Name ac = cname
    ∧ Forall2 (λ t r, SubstituteString t sf = Ok r)
        (filter (λ t, t ≠ []) (strings.TrimSpace <$> (c_Command c ++ c_Args c))) subs
    ∧ ac_Cmd ac = filter (λ t, t ≠ []) (strings.TrimSpace <$> subs)
    ∧ ∃ m, marshalContainer ac = VMap m ∧ (m !! str "cmd" = None ↔ ac_Cmd ac = []).
Proof.
  intros Hr Hb Hc.
  destruct (buildAvassaApplication_lookup _ _ _ _ _ _ _ Hr Hb Hc) as (svc & ac & Hs & Ha & Hbc).
  pose proof (buildContainer_fields _ _ _ _ _ _ Hbc) as (Hn & _).
  apply buildContainer_cmd in Hbc.
  assert (buildCmd wn cname (Some sf) (c_Command c ++ c_Args c) [] = Ok (ac_Cmd ac)) as Hcmd.
  { destruct (0 <? _)%nat eqn:E in Hbc; [done|].
    apply Nat.ltb_ge in E.
    destruct (c_Command c), (c_Args c); simpl in E; try lia. done. }
  apply buildCmd_Ok in Hcmd as (subs & H1 & H2).
  exists svc, ac, subs. repeat split; try done. apply marshalContainer_cmd.
Qed.

Lemma C5_cmd_tokens_witness :
  ∃ app,
    buildAvassaApplication (U:=model.ascii_only) (R:=model.range_forward)
      (F:=model.framework) inputs.plain_metadata (str "example")
      {[ str "main" := inputs.padded_command ]}
      (Some (model.resolve inputs.plain_metadata ∅)) = Ok app
    ∧ ∃ svc ac subs,
        svc ∈ app_Services app ∧ ac ∈ svc_Containers svc ∧ ac_Name ac = str "main"
        ∧ Forall2 (λ t r, SubstituteString (Framework:=model.framework) t
                            (model.resolve inputs.plain_metadata ∅) = Ok r)
            (filter (λ t, t ≠ [])
               (strings.TrimSpace <$> (c_Command inputs.padded_command
                                         ++ c_Args inputs.padded_command))) subs
        ∧ ac_Cmd ac = filter (λ t, t ≠ []) (strings.TrimSpace <$> subs)
        ∧ ∃ m, marshalContainer (Y:=model.yaml_with (λ _, [])) ac = VMap m
               ∧ (m !! str "cmd" = None ↔ ac_Cmd ac = []).
Proof.
  eexists. split; [vm_compute; reflexivity|].
  apply (C5_cmd_tokens (U:=model.ascii_only) (R:=model.range_forward)
           (F:=model.framework) inputs.plain_metadata (str "example")
           {[ str "main" := inputs.padded_command ]}).
  - by intros V m.
  - vm_compute. reflexivity.
  - vm_compute. reflexivity.
Defined.

(** C5, as the claim words it, fails on a token with blanks around it:
    the claim keeps the token [" ls "] as it is, the code emits ["ls"]. *)
Lemma C5_padded_token_counterexample :
  ¬ (∀ c app svc ac,
       buildAvassaApplication (U:=model.ascii_only) (R:=model.range_forward)
         (F:=model.framework) inputs.plain_metadata (str "example")
         {[ str "main" := c ]} (Some (model.resolve inputs.plain_metadata ∅)) = Ok app →
       svc ∈ app_Services app → ac ∈ svc_Containers svc →
       spec.cmd (F:=model.framework) (model.resolve inputs.plain_metadata ∅)
         (c_Command c) (c_Args c) = Ok (ac_Cmd ac)).
Proof.
  intros H. specialize (H inputs.padded_command).
  destruct (buildAvassaApplication _ _ _ _) as [app|e] eqn:E.
  - vm_compute in E. injection E as <-.
    specialize (H _ _ _ eq_refl (list_elem_of_here _ _) (list_elem_of_here _ _)).
    vm_compute in H. done.
  - vm_compute in E. done.
Qed.

(** ** Probes *)









(** ** The order of strings *)

Lemma str_leb_refl a : sort.str_leb a a = true.
Proof.
  induction a as [|x a IH]; simpl; [done|].
  by rewrite N.eqb_refl, IH, orb_true_r.
Qed.

Lemma str_leb_total a b : sort.str_leb a b = true ∨ sort.str_leb b a = true.
Proof.
  revert b. induction a as [|x a IH]; intros [|y b]; simpl; auto.
  destruct (N.ltb_spec x y); [by left|].
  destruct (N.ltb_spec y x); [by right|].
  assert (x = y) as -> by lia. rewrite N.eqb_refl. simpl. apply IH.
Qed.

Lemma str_leb_trans a b c :
  sort.str_leb a b = true → sort.str_leb b c = true → sort.str_leb a c = true.
Proof.
  revert b c. induction a as [|x a IH]; intros [|y b] [|z c]; simpl; try done.
  rewrite !orb_true_iff, !andb_true_iff, !N.ltb_lt, !N.eqb_eq.
  intros [H1 | [-> H1]] [H2 | [-> H2]]; [left; lia | by left | by left |].
  right. split; [done|]. by eapply IH.
Qed.

Lemma str_leb_antisym a b :
  sort.str_leb a b = true → sort.str_leb b a = true → a = b.
Proof.
  revert b. induction a as [|x a IH]; intros [|y b]; simpl; try done.
  rewrite !orb_true_iff, !andb_true_iff, !N.ltb_lt, !N.eqb_eq.
  intros [H1 | [-> H1]] [H2 | [H2e H2]]; try lia. f_equal. by apply IH.
Qed.

Global Instance str_le_total : Total sort.str_le.
Proof. intros a b. apply str_leb_total. Qed.

Global Instance str_le_trans : Transitive sort.str_le.
Proof. intros a b c. apply str_leb_trans. Qed.

Global Instance str_le_antisym : AntiSymm (=) sort.str_le.
Proof. intros a b. apply str_leb_antisym. Qed.

Lemma Strings_sorted l : Sorted sort.str_le (sort.Strings l).
Proof. apply Sorted_merge_sort, _. Qed.

Lemma Strings_perm l : sort.Strings l ≡ₚ l.
Proof. apply merge_sort_Permutation. Qed.

(** Sorting makes the order in which [range] yields the keys immaterial. *)
Lemma Strings_range_invariant {V} (R1 R2 : MapRange) (m : gmap gostring V) :
  range_ok R1 → range_ok R2 →
  sort.Strings ((range (MapRange:=R1) m).*1) = sort.Strings ((range (MapRange:=R2) m).*1).
Proof.
  intros H1 H2. apply (Sorted_unique sort.str_le); try apply Strings_sorted.
  by rewrite !Strings_perm, (H1 V m), (H2 V m).
Qed.

(** ** The serialiser *)

Lemma moveNameFirst_go_Some before keys r :
  moveNameFirst_go before keys = Some r →
  ∃ pre post, keys = pre ++ str "name" :: post
    ∧ r = str "name" :: reverse before ++ pre ++ post.
Proof.
  revert before. induction keys as [|k keys IH]; intros before; simpl; [done|].
  case_decide as Hk.
  - intros [= <-]. subst k. by exists [], keys.
  - intros H. apply IH in H as (pre & post & -> & ->).
    exists (k :: pre), post. split; [done|].
    by rewrite reverse_cons, <- !app_assoc.
Qed.

Lemma moveNameFirst_go_None before keys :
  moveNameFirst_go before keys = None → str "name" ∉ keys.
Proof.
  revert before. induction keys as [|k keys IH]; intros before; simpl.
  - intros _. apply not_elem_of_nil.
  - case_decide as Hk; [done|]. intros H. apply IH in H.
    apply not_elem_of_cons. split; [congruence | done].
Qed.

Lemma Sorted_remove_middle (pre post : list gostring) x :
  Sorted sort.str_le (pre ++ x :: post) → Sorted sort.str_le (pre ++ post).
Proof.
  intros H. apply Sorted_StronglySorted in H; [|apply _].
  apply StronglySorted_Sorted.
  induction pre as [|a pre IH]; simpl in *.
  - by inversion H.
  - inversion H as [|? ? Hs Hf]; subst. constructor; [by apply IH|].
    rewrite Forall_app in Hf |- *. destruct Hf as [Hf1 Hf2].
    split; [done|]. by inversion Hf2.
Qed.

Lemma moveNameFirst_spec keys :
  Sorted sort.str_le keys →
  moveNameFirst keys ≡ₚ keys
  ∧ if decide (str "name" ∈ keys)
    then ∃ rest, moveNameFirst keys = str "name" :: rest ∧ Sorted sort.str_le rest
    else moveNameFirst keys = keys.
Proof.
  intros Hs. unfold moveNameFirst.
  destruct (moveNameFirst_go [] keys) as [r|] eqn:E; simpl.
  - apply moveNameFirst_go_Some in E as (pre & post & -> & ->). simpl.
    split; [by rewrite Permutation_middle|].
    rewrite decide_True by set_solver.
    eexists. split; [done|]. by eapply Sorted_remove_middle.
  - apply moveNameFirst_go_None in E. by rewrite decide_False.
Qed.

Lemma alternate_bind {A B} (f g : A → B) (l : list A) :
  spec.alternate (k ← l; [f k; g k]) = f <$> l.
Proof.
  induction l as [|x l IH]; [done|].
  rewrite bind_cons, fmap_cons. simpl. by rewrite IH.
Qed.

Section serialiser_facts.
Context {R : MapRange}.

Lemma toYAMLNode_VMap t pk :
  toYAMLNode (VMap t) pk
  = mkNode MappingNode (str "!!map") []
      (k ← keyOrder pk ((range t).*1);
       [scalar "!!str" k;
        default (scalar "!!null" (str "null"))
          (map_imap (λ k x, Some (toYAMLNode x k)) t !! k)]).
Proof. reflexivity. Qed.

Lemma toYAMLNode_VSlice l pk :
  toYAMLNode (VSlice l) pk
  = mkNode SequenceNode (str "!!seq") [] ((λ el, toYAMLNode el pk) <$> l).
Proof. reflexivity. Qed.

Lemma mapping_keys_VMap t pk :
  spec.mapping_keys (toYAMLNode (VMap t) pk) = keyOrder pk ((range t).*1).
Proof.
  rewrite toYAMLNode_VMap. unfold spec.mapping_keys. simpl n_Content.
  rewrite (alternate_bind (scalar "!!str")). by rewrite <- list_fmap_compose, list_fmap_id.
Qed.

Lemma keyOrder_perm pk keys : keyOrder pk keys ≡ₚ keys.
Proof.
  unfold keyOrder. case_decide; [|apply Strings_perm].
  destruct (moveNameFirst_spec (sort.Strings keys) (Strings_sorted keys)) as [Hp _].
  by rewrite Hp, Strings_perm.
Qed.

Lemma subnode_trans n c root :
  spec.subnode n c → spec.subnode c root → spec.subnode n root.
Proof.
  intros Hn Hc. induction Hc as [|parent c' Hin Hc IH]; [done|].
  by eapply spec.subnode_child.
Qed.

Lemma occurs_subnode pk inl v pk' inl' o :
  range_ok R → spec.occurs pk inl v pk' inl' o →
  spec.subnode (toYAMLNode (VMap o) pk') (toYAMLNode v pk).
Proof.
  intros Hr Ho. induction Ho as [pk inl m | pk inl m k x pk' inl' o Hk Ho IH
                                 | pk inl l x pk' inl' o Hx Ho IH].
  - constructor.
  - eapply spec.subnode_child; [|exact IH].
    rewrite toYAMLNode_VMap. simpl n_Content.
    apply list_elem_of_bind. exists k. split.
    + rewrite map_lookup_imap, Hk. simpl. set_solver.
    + rewrite keyOrder_perm, (Hr _ m). apply list_elem_of_fmap.
      exists (k, x). split; [done|]. by apply elem_of_map_to_list.
  - eapply spec.subnode_child; [|exact IH].
    rewrite toYAMLNode_VSlice. simpl n_Content.
    apply list_elem_of_fmap. by exists x.
Qed.

End serialiser_facts.

(** C7, as the code has it. Every object of the document becomes a
    mapping node of the output that holds exactly its keys; when the key of
    the nearest entry around the object is [containers], whether the object
    is an element of a list there or the value itself, and the object has a
    key [name], that key comes first and the others follow in
    lexicographic order; every other object has all its keys in
    lexicographic order. *)
Theorem C7_key_order {R : MapRange} root pk' inl' o :
  range_ok R →
  spec.occurs [] false root pk' inl' o →
  spec.subnode (toYAMLNode (VMap o) pk') (toYAMLNode root [])
  ∧ spec.mapping_keys (toYAMLNode (VMap o) pk') ≡ₚ (map_to_list o).*1
  ∧ if decide (pk' = str "containers" ∧ is_Some (o !! str "name"))
    then ∃ rest, spec.mapping_keys (toYAMLNode (VMap o) pk') = str "name" :: rest
                 ∧ Sorted sort.str_le rest
    else Sorted sort.str_le (spec.mapping_keys (toYAMLNode (VMap o) pk')).
Proof.
  intros Hr Ho. split; [by eapply occurs_subnode|].
  rewrite mapping_keys_VMap. split; [by rewrite keyOrder_perm, (Hr _ o)|].
  unfold keyOrder.
  pose proof (moveNameFirst_spec _ (Strings_sorted ((range o).*1))) as [_ Hm].
  assert (str "name" ∈ sort.Strings ((range o).*1) ↔ is_Some (o !! str "name")) as Hn.
  { rewrite Strings_perm, (Hr _ o). split.
    - intros Hin. apply list_elem_of_fmap in Hin as ([k v] & -> & Hkv).
      apply elem_of_map_to_list in Hkv. by exists v.
    - intros [v Hv]. apply list_elem_of_fmap. exists (str "name", v).
      split; [done|]. by apply elem_of_map_to_list. }
  destruct (decide (pk' = str "containers")) as [Hc|Hc].
  - destruct (decide (str "name" ∈ sort.Strings ((range o).*1))) as [Hin|Hin].
    + rewrite decide_True; [done|]. split; [done | by apply Hn].
    + rewrite decide_False; [|rewrite <- Hn; tauto].
      rewrite Hm. apply Strings_sorted.
  - rewrite decide_False by tauto. apply Strings_sorted.
Qed.

Lemma C7_key_order_witness :
  ∃ rest,
    spec.mapping_keys
      (toYAMLNode (R:=model.range_forward) (VMap inputs.containers_object)
         (str "containers")) = str "name" :: rest
    ∧ Sorted sort.str_le rest.
Proof.
  pose proof (C7_key_order (R:=model.range_forward) inputs.containers_list_document
                (str "containers") true inputs.containers_object) as H.
  destruct H as (_ & _ & H).
  - by intros V m.
  - eapply spec.occurs_field
      with (k := str "containers") (x := VSlice [VMap inputs.containers_object]);
      [vm_compute; reflexivity|].
    eapply spec.occurs_elem; [apply list_elem_of_here|]. apply spec.occurs_here.
  - rewrite decide_True in H; [exact H|].
    split; [reflexivity|]. exists (VString (str "y")). vm_compute. reflexivity.
Defined.

(** C7, as the claim words it, fails for an object that is the value of
    a key [containers] without being in a list: its key [name] is emitted
    first all the same, before the key [a]. *)
Lemma C7_containers_object_counterexample :
  ¬ (∀ root pk' inl' o,
       spec.occurs [] false root pk' inl' o →
       ¬ (pk' = str "containers" ∧ inl' = true) →
       Sorted sort.str_le
         (spec.mapping_keys (toYAMLNode (R:=model.range_forward) (VMap o) pk'))).
Proof.
  intros H.
  specialize (H inputs.containers_document (str "containers") false
                inputs.containers_object).
  assert (Sorted sort.str_le [str "name"; str "a"]) as Hs.
  { apply H.
    - eapply spec.occurs_field
        with (k := str "containers") (x := VMap inputs.containers_object);
        [vm_compute; reflexivity|].
      apply spec.occurs_here.
    - by intros [_ ?]. }
  inversion Hs as [|? ? _ Hd]; subst. inversion Hd as [|? ? Hle]; subst.
  vm_compute in Hle. done.
Qed.

(** ** The command line *)

Section generate_facts.
Context {U : Unicode} {R : MapRange} {F : Framework} {FS : FileSystem} {Y : YAML}
        {S : Schema} {SA : StateAPI} {P : Provisioners}.

Lemma addScoreFile_no_overrides (O O' : Overrides) flags st arg :
  overrides_file flags = None → override_property flags = None →
  addScoreFile (O:=O) flags st arg = addScoreFile (O:=O') flags st arg.
Proof. intros H1 H2. unfold addScoreFile. rewrite H1, H2. reflexivity. Qed.

Lemma addScoreFiles_no_overrides (O O' : Overrides) flags st args :
  overrides_file flags = None → override_property flags = None →
  addScoreFiles (O:=O) flags st args = addScoreFiles (O:=O') flags st args.
Proof.
  intros H1 H2. revert st. induction args as [|arg args IH]; intros st; simpl; [done|].
  rewrite (addScoreFile_no_overrides O O') by done.
  destruct (addScoreFile flags st arg) as [tr [st'|e]]; simpl; [|done].
  by rewrite IH.
Qed.

End generate_facts.

(** C8. With no score file or with more than one, an invocation that
    sets an override flag fails after loading the state directory and
    before reading any file; and an invocation that is not for exactly one
    file runs the same whatever the override machinery would do: no
    override is applied. *)
Theorem C8_overrides_need_one_file {U : Unicode} {R : MapRange} {F : Framework}
    {FS : FileSystem} {Y : YAML} {O : Overrides} {S : Schema} {SA : StateAPI}
    {P : Provisioners} flags args :
  length args ≠ 1 →
  (is_Some (overrides_file flags) ∨ is_Some (override_property flags)
   ∨ is_Some (image flags) →
   ∃ e, generate flags args = ([EvLoadStateDirectory], Err e))
  ∧ ∀ O' : Overrides, generate (O:=O) flags args = generate (O:=O') flags args.
Proof.
  intros Hlen.
  assert ((length args =? 1)%nat = false) as Hl by by apply Nat.eqb_neq.
  split.
  - intros Hset. unfold generate.
    destruct LoadStateDirectory as [[st|]|e]; simpl; eauto.
    rewrite Hl. simpl.
    assert (bool_decide (is_Some (overrides_file flags))
            || bool_decide (is_Some (override_property flags))
            || bool_decide (is_Some (image flags)) = true) as ->; [|simpl; eauto].
    rewrite !orb_true_iff, !bool_decide_eq_true. tauto.
  - intros O'. unfold generate.
    destruct LoadStateDirectory as [[st|]|e]; simpl; try done.
    rewrite Hl. simpl.
    destruct (overrides_file flags) as [f|] eqn:E1; [done|].
    destruct (override_property flags) as [ps|] eqn:E2; [done|].
    simpl. by rewrite (addScoreFiles_no_overrides O O').
Qed.

Lemma C8_overrides_need_one_file_witness :
  ∃ e, generate (U:=model.ascii_only) (R:=model.range_forward) (F:=model.framework)
         (FS:=model.no_files) (Y:=model.yaml_with (λ _, [])) (O:=model.no_overrides)
         (S:=model.no_schema) (SA:=model.state_api model.two_workloads)
         (P:=model.provisioners) inputs.image_flag inputs.two_files
       = ([EvLoadStateDirectory], Err e).
Proof.
  apply (C8_overrides_need_one_file (U:=model.ascii_only) (R:=model.range_forward)
           (F:=model.framework) (FS:=model.no_files) (Y:=model.yaml_with (λ _, []))
           (O:=model.no_overrides) (S:=model.no_schema)
           (SA:=model.state_api model.two_workloads) (P:=model.provisioners)
           inputs.image_flag inputs.two_files).
  - simpl. lia.
  - right. right. by eexists.
Defined.

(** ** The loops over the entries of a map *)

Section insertM.
Context {A B : Type} (f : gostring → A → result B).

Lemma insertM_Ok entries acc out :
  NoDup entries.*1 → spec.insertM f entries acc = Ok out →
  (∀ k a, (k, a) ∈ entries → ∃ b, f k a = Ok b ∧ out !! k = Some b)
  ∧ (∀ k, k ∉ entries.*1 → out !! k = acc !! k).
Proof.
  revert acc. induction entries as [|[k0 a0] rest IH]; intros acc Hnd; simpl.
  - intros [= <-]. split; [|done]. intros k a Hin. by apply elem_of_nil in Hin.
  - apply NoDup_cons in Hnd as [Hk0 Hnd].
    destruct (f k0 a0) as [b0|e] eqn:E; [|done]. simpl.
    intros H. apply IH in H as [H1 H2]; [|done]. split.
    + intros k a Hin. apply elem_of_cons in Hin as [[= -> ->]|Hin]; [|by apply H1].
      exists b0. split; [done|]. rewrite H2 by done. apply lookup_insert_eq.
    + intros k Hk. apply not_elem_of_cons in Hk as [Hne Hk].
      rewrite H2 by done. by rewrite lookup_insert_ne.
Qed.



End insertM.

(** What a sound [range] yields. *)
Lemma range_NoDup {R : MapRange} {V} (m : gmap gostring V) :
  range_ok R → NoDup (range m).*1.
Proof. intros Hr. rewrite (Hr V m). apply NoDup_fst_map_to_list. Qed.

Lemma range_elem {R : MapRange} {V} (m : gmap gostring V) k v :
  range_ok R → (k, v) ∈ range m ↔ m !! k = Some v.
Proof. intros Hr. rewrite (Hr V m). apply elem_of_map_to_list. Qed.

Lemma range_keys {R : MapRange} {V} (m : gmap gostring V) k :
  range_ok R → k ∈ (range m).*1 ↔ is_Some (m !! k).
Proof.
  intros Hr. split.
  - intros Hin. apply list_elem_of_fmap in Hin as ([k' v] & -> & Hin).
    apply range_elem in Hin; [|done]. by exists v.
  - intros [v Hv]. apply list_elem_of_fmap. exists (k, v).
    split; [done|]. by apply range_elem.
Qed.

(** The result of such a loop, started on an empty map or on the map that
    is walked: every entry converted, under its key. *)
Lemma insertM_range {R : MapRange} {A B} (f : gostring → A → result B)
    (m : gmap gostring A) acc out :
  range_ok R → (∀ k, acc !! k = None ∨ is_Some (m !! k)) →
  spec.insertM f (range m) acc = Ok out →
  ∀ k, match m !! k with
       | Some a => ∃ b, f k a = Ok b ∧ out !! k = Some b
       | None => out !! k = None
       end.
Proof.
  intros Hr Hacc H k.
  apply insertM_Ok in H as [H1 H2]; [|by apply range_NoDup].
  destruct (m !! k) as [a|] eqn:E.
  - apply H1. by apply range_elem.
  - rewrite H2.
    + destruct (Hacc k) as [|[? ?]]; [done | congruence].
    + rewrite range_keys by done. rewrite E. by intros [? ?].
Qed.

Section loops.
Context {U : Unicode} {R : MapRange} {F : Framework} {FS : FileSystem}.

Lemma convertContainerVariables_loop_insertM entries sf acc :
  convertContainerVariables_loop entries sf acc
  = spec.insertM (λ key value, convertContainerVariable key value sf) entries acc.
Proof.
  revert acc. induction entries as [|[k v] rest IH]; intros acc; simpl; [done|].
  destruct (convertContainerVariable k v sf); simpl; [apply IH | done].
Qed.

Lemma convertContainerFiles_loop_insertM entries scoreFile sf acc :
  convertContainerFiles_loop entries scoreFile sf acc
  = spec.insertM (λ target file, convertContainerFile target file scoreFile sf)
      entries acc.
Proof.
  revert acc. induction entries as [|[k v] rest IH]; intros acc; simpl; [done|].
  destruct (convertContainerFile k v scoreFile sf); simpl; [apply IH | done].
Qed.

Lemma convertContainers_insertM wn scoreFile sf entries acc :
  convertContainers wn scoreFile sf entries acc
  = spec.insertM (convertContainer wn scoreFile sf) entries acc.
Proof.
  revert acc. induction entries as [|[k v] rest IH]; intros acc; simpl; [done|].
  destruct (convertContainer wn scoreFile sf k v); simpl; [apply IH | done].
Qed.

Lemma convertContainerVariables_Ok input sf out :
  range_ok R → convertContainerVariables input sf = Ok out →
  ∀ k, match input !! k with
       | Some v => ∃ r, SubstituteString v sf = Ok r ∧ out !! k = Some r
       | None => out !! k = None
       end.
Proof.
  intros Hr H k. unfold convertContainerVariables in H.
  rewrite convertContainerVariables_loop_insertM in H.
  pose proof (insertM_range _ _ _ _ Hr (λ k, or_introl (lookup_empty k)) H k) as Hk.
  destruct (input !! k) as [v|]; [|done].
  destruct Hk as (b & Hb & Ho). exists b. split; [|done].
  unfold convertContainerVariable in Hb. by destruct (SubstituteString v sf).
Qed.



Lemma convertContainerFiles_Ok input scoreFile sf out :
  range_ok R → convertContainerFiles input scoreFile sf = Ok out →
  ∀ t, match input !! t with
       | Some file => ∃ file', convertContainerFile t file scoreFile sf = Ok file'
                               ∧ out !! t = Some file'
       | None => out !! t = None
       end.
Proof.
  intros Hr H t. unfold convertContainerFiles in H.
  rewrite convertContainerFiles_loop_insertM in H.
  exact (insertM_range _ _ _ _ Hr (λ k, or_introl (lookup_empty k)) H t).
Qed.



(** What one file becomes: its text, substituted once unless the file
    says not to expand it; the source cleared, and the flag set. *)
Lemma convertContainerFile_Ok target file scoreFile sf file' :
  convertContainerFile target file scoreFile sf = Ok file' →
  ∃ raw content,
    spec.file_text scoreFile file raw
    ∧ (if cf_NoExpand file is Some true then content = raw
       else SubstituteString raw sf = Ok content)
    ∧ file' = {| cf_Content := Some content; cf_Source := None;
                 cf_NoExpand := Some true; cf_Mode := cf_Mode file |}.
Proof.
  unfold convertContainerFile, spec.file_text.
  destruct (cf_Content file) as [c|] eqn:Ec; simpl.
  - destruct (cf_NoExpand file) as [[]|] eqn:En; simpl.
    + intros [= <-]. exists c, c. eauto.
    + destruct (SubstituteString c sf) as [c'|] eqn:Es; [|done].
      intros [= <-]. exists c, c'. eauto.
    + destruct (SubstituteString c sf) as [c'|] eqn:Es; [|done].
      intros [= <-]. exists c, c'. eauto.
  - destruct (cf_Source file) as [src|] eqn:Esrc; [|done].
    destruct (os_ReadFile (sourcePath scoreFile src)) as [raw|] eqn:Er; [|done]. simpl.
    destruct (cf_NoExpand file) as [[]|] eqn:En; simpl.
    + intros [= <-]. exists raw, raw. split; [right; eauto | done].
    + destruct (SubstituteString raw sf) as [c'|] eqn:Es; [|done].
      intros [= <-]. exists raw, c'. split; [right; eauto | done].
    + destruct (SubstituteString raw sf) as [c'|] eqn:Es; [|done].
      intros [= <-]. exists raw, c'. split; [right; eauto | done].
Qed.


End loops.

(** ** [convert.Workload] *)

Section workload.
Context {U : Unicode} {R : MapRange} {F : Framework} {FS : FileSystem}.

Local Opaque str.

Lemma convertContainer_Ok wn scoreFile sf cname c c' :
  convertContainer wn scoreFile sf cname c = Ok c' →
  convertContainerVariables (c_Variables c) sf = Ok (c_Variables c')
  ∧ convertContainerFiles (c_Files c) scoreFile sf = Ok (c_Files c')
  ∧ spec.same_command c c'.
Proof.
  unfold convertContainer.
  destruct (convertContainerVariables _ _) as [vars|]; [|done].
  destruct (convertContainerFiles _ _ _) as [files|]; [|done].
  simpl. by intros [= <-].
Qed.


Lemma convertContainers_Ok wn scoreFile sf cs cs' :
  range_ok R → convertContainers wn scoreFile sf (range cs) cs = Ok cs' →
  ∀ k, match cs !! k with
       | Some c => ∃ c', convertContainer wn scoreFile sf k c = Ok c'
                         ∧ cs' !! k = Some c'
       | None => cs' !! k = None
       end.
Proof.
  intros Hr H. rewrite convertContainers_insertM in H.
  apply (insertM_range _ cs cs cs' Hr); [|done].
  intros k. destruct (cs !! k); eauto.
Qed.





Context {SA : StateAPI} {Y : YAML}.

Lemma Workload_unfold st wn outs :
  GetResourceOutputForWorkload st wn = Ok outs →
  let w := default zeroWorkloadState (Workloads st !! wn) in
  let sf := BuildSubstitutionFunction (w_Metadata (Spec w)) outs in
  Workload st wn
  = (containers ← convertContainers wn (File w) sf
                    (range (w_Containers (Spec w))) (w_Containers (Spec w));
     app ← buildAvassaApplication (w_Metadata (Spec w)) wn containers (Some sf);
     Ok (marshalApplication app)).
Proof. intros H. unfold Workload. by rewrite H. Qed.

(** What a successful conversion went through. *)
Lemma Workload_Ok st wn outs doc :
  GetResourceOutputForWorkload st wn = Ok outs → Workload st wn = Ok doc →
  let w := default zeroWorkloadState (Workloads st !! wn) in
  let sf := BuildSubstitutionFunction (w_Metadata (Spec w)) outs in
  ∃ containers app,
    convertContainers wn (File w) sf
      (range (w_Containers (Spec w))) (w_Containers (Spec w)) = Ok containers
    ∧ buildAvassaApplication (w_Metadata (Spec w)) wn containers (Some sf) = Ok app
    ∧ doc = marshalApplication app.
Proof.
  intros Hg H. rewrite (Workload_unfold _ _ _ Hg) in H. simpl in *.
  destruct (convertContainers _ _ _ _ _) as [cs'|] eqn:E1; [|done]. simpl in H.
  destruct (buildAvassaApplication _ _ _ _) as [app|] eqn:E2; [|done]. simpl in H.
  injection H as <-. by exists cs', app.
Qed.

End workload.

Section workload_errors.
Context {U : Unicode} {R : MapRange} {F : Framework} {FS : FileSystem}
        {SA : StateAPI} {Y : YAML}.

Local Opaque str.





(** The converted containers keep the names, the commands and the
    arguments of the workload's. *)
Lemma convertContainers_same_command wn scoreFile sf cs cs' cname :
  range_ok R → convertContainers wn scoreFile sf (range cs) cs = Ok cs' →
  (∀ c, cs !! cname = Some c →
     ∃ c', cs' !! cname = Some c' ∧ spec.same_command c c'
           ∧ convertContainer wn scoreFile sf cname c = Ok c')
  ∧ (∀ c', cs' !! cname = Some c' → ∃ c, cs !! cname = Some c ∧ spec.same_command c c').
Proof.
  intros Hr H. pose proof (convertContainers_Ok _ _ _ _ _ Hr H cname) as Hk.
  destruct (cs !! cname) as [c|] eqn:E.
  - destruct Hk as (c' & Hc & Hl).
    pose proof (convertContainer_Ok _ _ _ _ _ _ Hc) as (_ & _ & Hs). split.
    + intros ? [= <-]. eauto.
    + intros c'' Hc''. rewrite Hl in Hc''. injection Hc'' as <-. eauto.
  - split; [done|]. intros c' Hc'. congruence.
Qed.

End workload_errors.



(** The error that the broken reference yields, in full. *)
Example broken_reference_error :
  Workload (U:=model.ascii_only) (R:=model.range_forward) (F:=model.framework)
    (FS:=model.no_files) (SA:=model.state_api inputs.broken_reference)
    (Y:=model.yaml_with (λ _, [])) inputs.broken_reference (str "example")
  = Err (str "workload: example: container: main: variables: DYNAMIC: invalid ref 'metadata.missing': unknown metadata path").
Proof. vm_compute. reflexivity. Qed.

(** C9. Every string is substituted once, and what comes out is emitted
    as it is. A converted file holds its text, substituted once unless the
    file is marked as not to be expanded, has no source any more, and is
    marked as not to be expanded; and in the application of a workload the
    value of every variable is the result of one substitution of the
    declared value, and every command token the result of one substitution
    of the declared token. *)
Theorem C9_substituted_once {U : Unicode} {R : MapRange} {F : Framework}
    {FS : FileSystem} {SA : StateAPI} {Y : YAML} st wn outs doc :
  range_ok R →
  GetResourceOutputForWorkload st wn = Ok outs →
  Workload st wn = Ok doc →
  let w := default zeroWorkloadState (Workloads st !! wn) in
  let sf := BuildSubstitutionFunction (w_Metadata (Spec w)) outs in
  ∀ cname c, w_Containers (Spec w) !! cname = Some c →
    (∃ files,
       convertContainerFiles (c_Files c) (File w) sf = Ok files
       ∧ ∀ target,
           match c_Files c !! target with
           | Some file =>
               ∃ raw content,
                 spec.file_text (File w) file raw
                 ∧ (if cf_NoExpand file is Some true then content = raw
                    else SubstituteString raw sf = Ok content)
                 ∧ files !! target
                   = Some {| cf_Content := Some content; cf_Source := None;
                             cf_NoExpand := Some true; cf_Mode := cf_Mode file |}
           | None => files !! target = None
           end)
    ∧ ∃ app svc ac subs,
        doc = marshalApplication app
        ∧ svc ∈ app_Services app ∧ ac ∈ svc_Containers svc ∧ ac_Name ac = cname
        ∧ (∀ key,
             match c_Variables c !! key with
             | Some v => ∃ r, SubstituteString v sf = Ok r ∧ ac_Env ac !! key = Some r
             | None => ac_Env ac !! key = None
             end)
        ∧ Forall2 (λ t r, SubstituteString t sf = Ok r)
            (filter (λ t, t ≠ []) (strings.TrimSpace <$> (c_Command c ++ c_Args c)))
            subs
        ∧ ac_Cmd ac = filter (λ t, t ≠ []) (strings.TrimSpace <$> subs).
Proof.
  intros Hr Hg Hw w sf cname c Hc.
  destruct (Workload_Ok _ _ _ _ Hg Hw) as (cs' & app & Hcs & Hb & ->). fold w sf in Hcs, Hb.
  destruct (convertContainers_same_command _ _ _ _ _ cname Hr Hcs) as [H1 _].
  destruct (H1 c Hc) as (c' & Hc' & [Hcmd Hargs] & Hconv).
  apply convertContainer_Ok in Hconv as (Hvars & Hfiles & _).
  split.
  - exists (c_Files c'). split; [done|]. intros target.
    pose proof (convertContainerFiles_Ok _ _ _ _ Hr Hfiles target) as Ht.
    destruct (c_Files c !! target) as [file|]; [|done].
    destruct Ht as (file' & Hf & Hl).
    apply convertContainerFile_Ok in Hf as (raw & content & ? & ? & ->).
    by exists raw, content.
  - destruct (buildAvassaApplication_lookup _ _ _ _ _ _ _ Hr Hb Hc')
      as (svc & ac & Hs & Ha & Hbc).
    pose proof (buildContainer_fields _ _ _ _ _ _ Hbc) as (Hn & _ & _ & _ & _ & _ & He & _).
    apply buildContainer_cmd in Hbc.
    assert (buildCmd wn cname (Some sf) (c_Command c' ++ c_Args c') [] = Ok (ac_Cmd ac))
      as Hcmd'.
    { destruct (0 <? _)%nat eqn:E in Hbc; [done|].
      apply Nat.ltb_ge in E.
      destruct (c_Command c'), (c_Args c'); simpl in E; try lia. done. }
    apply buildCmd_Ok in Hcmd' as (subs & Hf2 & Hac). rewrite Hcmd, Hargs in Hf2.
    exists app, svc, ac, subs. repeat split; try done.
    intros key. rewrite He. exact (convertContainerVariables_Ok _ _ _ Hr Hvars key).
Qed.

Lemma C9_substituted_once_witness :
  ∃ doc,
    Workload (U:=model.ascii_only) (R:=model.range_forward) (F:=model.framework)
      (FS:=model.no_files) (SA:=model.state_api inputs.placeholder_text)
      (Y:=model.yaml_with (λ _, [])) inputs.placeholder_text (str "example") = Ok doc
    ∧ ∃ app svc ac,
        doc = marshalApplication (Y:=model.yaml_with (λ _, [])) app
        ∧ svc ∈ app_Services app ∧ ac ∈ svc_Containers svc ∧ ac_Name ac = str "main"
        ∧ match inputs.placeholder_container.(c_Variables) !! str "V" with
          | Some v =>
              ∃ r, SubstituteString (Framework:=model.framework) v
                     (model.resolve inputs.placeholder_metadata ∅) = Ok r
                   ∧ ac_Env ac !! str "V" = Some r
          | None => ac_Env ac !! str "V" = None
          end.
Proof.
  eexists. split; [vm_compute; reflexivity|].
  destruct (C9_substituted_once (U:=model.ascii_only) (R:=model.range_forward)
      (F:=model.framework) (FS:=model.no_files)
      (SA:=model.state_api inputs.placeholder_text) (Y:=model.yaml_with (λ _, []))
      inputs.placeholder_text (str "example") ∅ _
      ltac:(by intros V m) eq_refl ltac:(vm_compute; reflexivity)
      (str "main") inputs.placeholder_container ltac:(vm_compute; reflexivity))
    as (_ & app & svc & ac & subs & H1 & H2 & H3 & H4 & H5 & _).
  exists app, svc, ac. repeat split; try done. apply (H5 (str "V")).
Defined.

(** A substituted value is not read again: the text that stands for a
    placeholder in the metadata comes out as it is, in the variable, in the
    file and in the command line. *)
Example substitution_is_not_recursive :
  convertContainerVariables (R:=model.range_forward) (F:=model.framework)
    (c_Variables inputs.placeholder_container)
    (model.resolve inputs.placeholder_metadata ∅)
  = Ok {[ str "V" := str "${metadata.name}" ]}
  ∧ convertContainerFiles (R:=model.range_forward) (F:=model.framework)
      (FS:=model.no_files) (c_Files inputs.placeholder_container) None
      (model.resolve inputs.placeholder_metadata ∅)
    = Ok {[ str "/etc/motd" :=
            {| cf_Content := Some (str "hello ${metadata.name}"); cf_Source := None;
               cf_NoExpand := Some true; cf_Mode := None |} ]}
  ∧ buildCmd (F:=model.framework) (str "example") (str "main")
      (Some (model.resolve inputs.placeholder_metadata ∅))
      [str "echo"; str "${metadata.raw}"] []
    = Ok [str "echo"; str "${metadata.name}"].
Proof. repeat split; vm_compute; reflexivity. Qed.

(** ** The order of the manifests *)

Lemma range_backward_ok : range_ok model.range_backward.
Proof. intros V m. apply reverse_Permutation. Qed.

(** C1 fails on the code. The manifests are written in the order in
    which [range] walks the map of workloads: on the project of the two
    workloads [a] and [b], with whatever encoder, one order of the map
    writes the manifest of [b] first and the other that of [a], though both
    orders are ones a Go map may take. Each manifest has the separator in
    front of it. *)
Theorem C1_output_follows_map_order (encode : Node → gostring) :
  ∃ ma mb,
    Workload (U:=model.ascii_only) (R:=model.range_forward) (F:=model.framework)
      (FS:=model.no_files) (SA:=model.state_api model.two_workloads)
      (Y:=model.yaml_with encode) model.two_workloads (str "a") = Ok ma
    ∧ Workload (U:=model.ascii_only) (R:=model.range_forward) (F:=model.framework)
        (FS:=model.no_files) (SA:=model.state_api model.two_workloads)
        (Y:=model.yaml_with encode) model.two_workloads (str "b") = Ok mb
    ∧ toYAMLNode (R:=model.range_forward) (VMap ma) []
      ≠ toYAMLNode (R:=model.range_forward) (VMap mb) []
    ∧ generate (U:=model.ascii_only) (R:=model.range_forward) (F:=model.framework)
        (FS:=model.no_files) (Y:=model.yaml_with encode) (O:=model.no_overrides)
        (S:=model.no_schema) (SA:=model.state_api model.two_workloads)
        (P:=model.provisioners) inputs.to_stdout []
      = ([EvLoadStateDirectory; EvPersist;
          EvStdout (str "---" ++ [10%N]
                      ++ encode (toYAMLNode (R:=model.range_forward) (VMap mb) [])
                      ++ str "---" ++ [10%N]
                      ++ encode (toYAMLNode (R:=model.range_forward) (VMap ma) [])
                      ++ [])],
         Ok ())
    ∧ generate (U:=model.ascii_only) (R:=model.range_backward) (F:=model.framework)
        (FS:=model.no_files) (Y:=model.yaml_with encode) (O:=model.no_overrides)
        (S:=model.no_schema) (SA:=model.state_api model.two_workloads)
        (P:=model.provisioners) inputs.to_stdout []
      = ([EvLoadStateDirectory; EvPersist;
          EvStdout (str "---" ++ [10%N]
                      ++ encode (toYAMLNode (R:=model.range_forward) (VMap ma) [])
                      ++ str "---" ++ [10%N]
                      ++ encode (toYAMLNode (R:=model.range_forward) (VMap mb) [])
                      ++ [])],
         Ok ())
    ∧ range_ok model.range_forward ∧ range_ok model.range_backward.
Proof.
  eexists _, _.
  split; [vm_compute; reflexivity|].
  split; [vm_compute; reflexivity|].
  split; [vm_compute; discriminate|].
  split; [vm_compute; reflexivity|].
  split; [vm_compute; reflexivity|].
  split; [apply range_forward_ok | apply range_backward_ok].
Qed.

(** ** The functions on concrete inputs *)

Example TrimSpace_ex : strings.TrimSpace (str "  a b ") = str "a b".
Proof. reflexivity. Qed.

Example Atoi_ex :
  strconv.Atoi (str "-42") = Some (-42)%Z ∧ strconv.Atoi (str "4x") = None
  ∧ strconv.Atoi (str "9223372036854775808") = None ∧ strconv.Atoi (str "+") = None.
Proof. vm_compute. auto. Qed.

Example Itoa_ex : strconv.Itoa 0 = str "0" ∧ strconv.Itoa (-17) = str "-17".
Proof. vm_compute. auto. Qed.

Example FieldsFunc_ex :
  strings.FieldsFunc (str "a--b-") is_dash = [str "a"; str "b"].
Proof. reflexivity. Qed.

Example SplitN2_ex :
  strings.SplitN2 (str "a.b=c=d") 61%N = [str "a.b"; str "c=d"]
  ∧ strings.SplitN2 (str "ab") 61%N = [str "ab"].
Proof. vm_compute. auto. Qed.

Example Strings_ex :
  sort.Strings [str "b"; str "ab"; str "a"] = [str "a"; str "ab"; str "b"].
Proof. vm_compute. reflexivity. Qed.

(** The escape of section 4.4 and the placeholder of section 8. *)
Example substitute_ex :
  SubstituteString (Framework:=model.framework) (str "$$HOME of ${metadata.name}")
    (model.resolve inputs.plain_metadata ∅)
  = Ok (str "$HOME of example").
Proof. vm_compute. reflexivity. Qed.

(** The scenario of section 8: one service [example-service] with one
    replica and one container [main] whose variable [K] is resolved. *)
Example scenario :
  ∃ app svc ac,
    buildAvassaApplication (U:=model.ascii_only) (R:=model.range_forward)
      (F:=model.framework) inputs.plain_metadata (str "example")
      {[ str "main" :=
         {| c_Image := str "repo/img"; c_Command := []; c_Args := [];
            c_Variables := {[ str "K" := str "example" ]}; c_Files := ∅;
            c_LivenessProbe := None; c_ReadinessProbe := None |} ]}
      (Some (model.resolve inputs.plain_metadata ∅)) = Ok app
    ∧ app_Name app = str "example" ∧ app_Services app = [svc]
    ∧ svc_Name svc = str "example-service" ∧ svc_Replicas svc = 1%Z
    ∧ svc_Containers svc = [ac] ∧ ac_Name ac = str "main"
    ∧ ac_Env ac = {[ str "K" := str "example" ]}.
Proof. eexists _, _, _. repeat split; vm_compute; reflexivity. Qed.

(** A container without variables has no key [env]. *)
Example empty_env_omitted {Y : YAML} ac :
  ac_Env ac = ∅ →
  ∃ m, marshalContainer ac = VMap m ∧ m !! str "env" = None.
Proof.
  intros He. eexists. split; [reflexivity|].
  do 7 skip_field. unfold omitempty_string_map. rewrite He, decide_True by done.
  rewrite fields_None. do 3 skip_field. apply fields_nil.
Qed.
